(** * wkhtmltoimage.go: option translation, binary discovery and output repair

    A shallow embedding of [src/wkhtmltoimage.go].  Go strings are byte
    strings ([string]), [[]byte] values are slices of [byte] that may be
    [nil], an [error] is its message, and the pair [(value, err)] that Go
    functions return is kept as a pair whose second component is
    [option error].  Run-time panics are an explicit outcome. *)

From Stdlib Require Import String Ascii List ZArith Lia Bool.
From Stdlib Require Import Strings.Byte.
Import ListNotations.
Local Open Scope string_scope.
Local Open Scope list_scope.
Local Open Scope Z_scope.

(** ** Go values *)

(** An [error] value is modelled by the text of its [Error()] method;
    [None] is the nil error. *)
Definition error := string.

(** A Go slice: [nil], or a (possibly empty) sequence of elements. *)
Inductive slice (A : Type) : Type :=
| nil_slice
| make_slice (elems : list A).
Arguments nil_slice {A}.
Arguments make_slice {A} elems.

Definition elems {A} (s : slice A) : list A :=
  match s with
  | nil_slice => []
  | make_slice l => l
  end.

Definition bytes := slice byte.

(** The run-time panics the embedded code can reach. *)
Inductive panic : Type :=
| slice_bounds_out_of_range
| nil_pointer_dereference.

Inductive outcome (A : Type) : Type :=
| Ret (a : A)
| Panic (p : panic).
Arguments Ret {A} a.
Arguments Panic {A} p.

(** ** strconv *)

Module strconv.

(** The 64-bit [int] of the platforms the wrapper targets. *)
Definition int_range (z : Z) : Prop := - 2 ^ 63 <= z < 2 ^ 63.
Definition int_rangeb (z : Z) : bool := (- 2 ^ 63 <=? z) && (z <? 2 ^ 63).

Definition digit_char (d : Z) : ascii := ascii_of_N (Z.to_N (48 + d)).

Definition digit_val (c : ascii) : option Z :=
  let n := Z.of_N (N_of_ascii c) in
  if (48 <=? n) && (n <=? 57) then Some (n - 48) else None.

(** [formatBits], base 10: digits are produced from the least significant
    one into a buffer filled from its end; [fuel] is the buffer's size. *)
Fixpoint format_digits (fuel : nat) (u : Z) (acc : string) : string :=
  match fuel with
  | O => acc
  | S fuel' =>
      if u <? 10 then String (digit_char u) acc
      else format_digits fuel' (u / 10) (String (digit_char (u mod 10)) acc)
  end.

(** [var a [64 + 1]byte] in [formatBits]. *)
Definition buffer_size : nat := 65.

Definition Itoa (i : Z) : string :=
  if i <? 0 then String "-" (format_digits buffer_size (- i) "")
  else format_digits buffer_size i "".

Fixpoint parse_digits (s : string) (n : Z) : option Z :=
  match s with
  | EmptyString => Some n
  | String ch s' =>
      match digit_val ch with
      | Some d => parse_digits s' (n * 10 + d)
      | None => None
      end
  end.

(** [Atoi]: an optional sign, at least one decimal digit, nothing else,
    and a value that fits [int]; [None] is a syntax or range error. *)
Definition Atoi (s : string) : option Z :=
  match s with
  | EmptyString => None
  | String c rest =>
      let signed := Ascii.eqb c "-" || Ascii.eqb c "+" in
      let body := if signed then rest else s in
      match body with
      | EmptyString => None
      | _ =>
          match parse_digits body 0 with
          | Some n =>
              let v := if Ascii.eqb c "-" then - n else n in
              if int_rangeb v then Some v else None
          | None => None
          end
      end
  end.

End strconv.

(** ** The options record and the translator *)

(** [ImageOptions]. *)
Record ImageOptions : Type := mkImageOptions {
  BinaryPath : string;
  Input : string;
  Format : string;
  Height : Z;
  Width : Z;
  Quality : Z;
  Html : string;
  Output : string
}.

Definition set_Html (o : ImageOptions) (h : string) : ImageOptions :=
  mkImageOptions (BinaryPath o) (Input o) (Format o) (Height o) (Width o)
                 (Quality o) h (Output o).

Definition set_BinaryPath (o : ImageOptions) (p : string) : ImageOptions :=
  mkImageOptions p (Input o) (Format o) (Height o) (Width o)
                 (Quality o) (Html o) (Output o).

Definition is_empty (s : string) : bool :=
  match s with
  | EmptyString => true
  | String _ _ => false
  end.

(** [--height N], [--width N], [--quality N]: present when [v != 0]. *)
Definition int_flag (name : string) (v : Z) : list string :=
  if v =? 0 then [] else [name; strconv.Itoa v].

(** [buildParams].  The function writes through its pointer argument
    ([options.Html = ""]), so the record after the call is returned next to
    the Go results [([]string, error)]. *)
Definition buildParams (options : ImageOptions)
  : ImageOptions * (list string * option error) :=
  if is_empty (Input options) then
    (options, ([], Some "Must provide input"))
  else
    let a := ["-q"; "--disable-plugins"] in
    let a := a ++ ["--format"] in
    let a := a ++ [if is_empty (Format options) then "png" else Format options] in
    let a := a ++ int_flag "--height" (Height options) in
    let a := a ++ int_flag "--width" (Width options) in
    let a := a ++ int_flag "--quality" (Quality options) in
    let options :=
      if String.eqb (Input options) "-" then options else set_Html options "" in
    let a := a ++ [Input options] in
    let a := a ++ [if is_empty (Output options) then "-" else Output options] in
    (options, (a, None)).

(** ** Output repair *)

(** The two image packages, [image/png] and [image/jpeg], behind one
    interface.  [Decode] returns [(image.Image, error)]: [None] is the pair
    [(nil, err)] both decoders return on malformed input.  [Encode] writes
    into a fresh [bytes.Buffer] whose error result the caller drops, so it
    is modelled by what [buf.Bytes()] holds afterwards. *)
Record Codec (Image : Type) : Type := mkCodec {
  Decode : list byte -> option Image;
  Encode : Image -> bytes
}.
Arguments Decode {Image} _ _.
Arguments Encode {Image} _ _.

Section Repair.

Context {Image : Type}.
Variables png jpeg : Codec Image.

(** The decode, trim, retry loop:
    [decoded, err := Decode(img); for err != nil { img = img[1:];
    if len(img) == 0 { break }; decoded, err = Decode(img) }].
    The result is [decoded] at the loop's exit. *)
Fixpoint trim_loop (c : Codec Image) (img : list byte)
  : outcome (option Image) :=
  match Decode c img with
  | Some decoded => Ret (Some decoded)
  | None =>
      match img with
      | [] => Panic slice_bounds_out_of_range
      | _ :: rest =>
          match rest with
          | [] => Ret None
          | _ :: _ => trim_loop c rest
          end
      end
  end.

(** [Encode(buf, decoded); return buf.Bytes()].  Both encoders start by
    calling [m.Bounds()], a method call on the interface value: on the
    nil interface this is a run-time panic. *)
Definition reencode (c : Codec Image) (decoded : option Image)
  : outcome bytes :=
  match decoded with
  | Some m => Ret (Encode c m)
  | None => Panic nil_pointer_dereference
  end.

Definition repair (c : Codec Image) (img : bytes) : outcome bytes :=
  match trim_loop c (elems img) with
  | Ret decoded => reencode c decoded
  | Panic p => Panic p
  end.

(** [cleanupOutput]. *)
Definition cleanupOutput (img : bytes) (format : string) : outcome bytes :=
  if String.eqb format "png" then repair png img
  else if String.eqb format "jpg" then repair jpeg img
  else Ret img.

End Repair.

(** ** The page-list document *)

(** Modelled from the spec: the declaration of [jsonPDFGenerator] is not in
    [src/]; the spec gives "an object with a list of page entries; each
    entry optionally carries a base64-encoded HTML blob or an input file/URL
    string".  Only the fields [ImageFromJSON] reads are kept. *)
Record jsonPage : Type := mkJsonPage {
  InputFile : string;
  Base64PageData : string
}.

Record jsonPDFGenerator : Type := mkJsonPDFGenerator {
  Pages : list jsonPage
}.

(** ** The process-wide path cache *)

(** Modelled from the spec: the declaration of [stringStore] is not in
    [src/]; the spec gives "a query operation returning the currently
    resolved/cached executable path (empty string if not yet resolved)".
    It is a cell holding one string, read by [Get] and written by [Set] (here [Set_]). *)
Module stringStore.
Record t : Type := mk { val : string }.
Definition Get (ss : t) : string := val ss.
Definition Set_ (_ : t) (s : string) : t := mk s.
Definition zero : t := mk "".
End stringStore.

(** ** The operating system *)

(** What the wrapper asks of its environment, in call order of appearance:
    [os.Args[0]], [filepath.Dir], [filepath.Abs], [filepath.Join],
    [exec.LookPath], [os.Getenv], [exec.Command(...).CombinedOutput()],
    and the two decoders of the page-list adapter. *)
Record OS : Type := mkOS {
  os_Args0 : string;
  filepath_Dir : string -> string;
  filepath_Abs : string -> string * option error;
  filepath_Join : string -> string -> string;
  exec_LookPath : string -> string * option error;
  os_Getenv : string -> string;
  cmd_CombinedOutput :
    string -> list string -> option string -> bytes * option error;
  json_Decode : list byte -> jsonPDFGenerator * option error;
  base64_DecodeString : string -> bytes * option error
}.

(** Every interaction with the cache or the environment leaves an event. *)
Inductive Event : Type :=
| EvGet
| EvSet (path : string)
| EvAbs (path : string)
| EvLookPath (file : string)
| EvGetenv (key : string)
| EvRun (name : string) (args : list string) (stdin : option string)
| EvPrintln (line : string).

(** Computations over the global [binImagePath] that log their events and
    may panic. *)
Definition M (A : Type) : Type :=
  stringStore.t -> outcome A * stringStore.t * list Event.

Definition ret {A} (a : A) : M A := fun st => (Ret a, st, []).

Definition bind {A B} (m : M A) (f : A -> M B) : M B :=
  fun st =>
    match m st with
    | (Ret a, st1, t1) =>
        match f a st1 with
        | (r, st2, t2) => (r, st2, t1 ++ t2)
        end
    | (Panic p, st1, t1) => (Panic p, st1, t1)
    end.

Definition lift {A} (r : outcome A) : M A := fun st => (r, st, []).

Definition emit {A} (e : Event) (a : A) : M A := fun st => (Ret a, st, [e]).

Declare Scope go_scope.
Delimit Scope go_scope with go.
Notation "x <- m ;; k" := (bind m (fun x => k))
  (at level 61, m at next level, right associativity) : go_scope.
Notation "' pat <- m ;; k" := (bind m (fun x => match x with pat => k end))
  (at level 61, pat pattern, m at next level, right associativity) : go_scope.
Notation "m ;; k" := (bind m (fun _ => k))
  (at level 61, right associativity) : go_scope.

Definition result_of {A} (r : outcome A * stringStore.t * list Event)
  : outcome A := fst (fst r).
Definition store_of {A} (r : outcome A * stringStore.t * list Event)
  : stringStore.t := snd (fst r).
Definition events_of {A} (r : outcome A * stringStore.t * list Event)
  : list Event := snd r.

(** ** Discovery, invocation and the page-list adapter *)

Section Invoker.

Variable os : OS.
Context {Image : Type}.
Variables png jpeg : Codec Image.

Local Open Scope go_scope.

(** [binImagePath.Get()] and [binImagePath.Set(path)] on the global. *)
Definition binImagePath_Get : M string :=
  fun st => (Ret (stringStore.Get st), st, [EvGet]).

Definition binImagePath_Set (path : string) : M unit :=
  fun st => (Ret tt, stringStore.Set_ st path, [EvSet path]).

(** [GetWKHTMLToImagePath]. *)
Definition GetWKHTMLToImagePath : M string := binImagePath_Get.

Definition Abs (path : string) : M (string * option error) :=
  emit (EvAbs path) (filepath_Abs os path).

Definition LookPath (file : string) : M (string * option error) :=
  emit (EvLookPath file) (exec_LookPath os file).

Definition Getenv (key : string) : M string :=
  emit (EvGetenv key) (os_Getenv os key).

Definition CombinedOutput (name : string) (args : list string)
           (stdin : option string) : M (bytes * option error) :=
  emit (EvRun name args stdin) (cmd_CombinedOutput os name args stdin).

Definition Println (line : string) : M unit := emit (EvPrintln line) tt.

Definition exe : string := "wkhtmltoimage".

(** [err == nil && path != ""]. *)
Definition found (r : string * option error) : bool :=
  match r with
  | (path, None) => negb (is_empty path)
  | (_, Some _) => false
  end.

(** [fmt.Errorf("%s not found", exe)]. *)
Definition not_found : error := (exe ++ " not found")%string.

(** [findPath]; the result is the returned [error]. *)
Definition findPath : M (option error) :=
  cached <- GetWKHTMLToImagePath ;;
  if negb (is_empty cached) then ret None
  else
    ' (exeDir, err) <- Abs (filepath_Dir os (os_Args0 os)) ;;
    match err with
    | Some e => ret (Some e)
    | None =>
        r <- LookPath (filepath_Join os exeDir exe) ;;
        if found r then binImagePath_Set (fst r) ;; ret None
        else
          r <- LookPath exe ;;
          if found r then binImagePath_Set (fst r) ;; ret None
          else
            dir <- Getenv "WKHTMLTOIMAGE_PATH" ;;
            if is_empty dir then ret (Some not_found)
            else
              r <- LookPath (filepath_Join os dir exe) ;;
              if found r then binImagePath_Set (fst r) ;; ret None
              else ret (Some not_found)
    end.

(** [GenerateImage].  The options record is reached through a pointer and
    written to twice ([Html] by [buildParams], [BinaryPath] here), so its
    final contents are returned with the Go results [([]byte, error)]. *)
Definition GenerateImage (options : ImageOptions)
  : M (ImageOptions * (bytes * option error)) :=
  match buildParams options with
  | (options, (_, Some err)) => ret (options, (make_slice [], Some err))
  | (options, (arr, None)) =>
      findPath ;;
      ' (options, unset) <-
        (if is_empty (BinaryPath options) then
           path <- GetWKHTMLToImagePath ;;
           ret (set_BinaryPath options path, is_empty path)
         else ret (options, false)) ;;
      if (unset : bool) then
        ret (options, (make_slice [], Some "BinaryPath not set"))
      else
        let stdin :=
          if is_empty (Html options) then None else Some (Html options) in
        ' (output, err) <- CombinedOutput (BinaryPath options) arr stdin ;;
        match err with
        | Some e => Println e
        | None => ret tt
        end ;;
        trimmed <- lift (cleanupOutput png jpeg output (Format options)) ;;
        ret (options, (trimmed, err))
  end.

(** [&ImageOptions{Input: ...}] and [&ImageOptions{Input: "-", Html: ...}]. *)
Definition options_of_input (input : string) : ImageOptions :=
  mkImageOptions "" input "" 0 0 0 "" "".

Definition options_of_html (html : string) : ImageOptions :=
  mkImageOptions "" "-" "" 0 0 0 html "".

(** [ImageFromJSON]; the reader is given by the bytes it yields. *)
Definition ImageFromJSON (jsonReader : list byte)
  : M (bytes * option error) :=
  match json_Decode os jsonReader with
  | (_, Some err) => ret (nil_slice, Some ("error unmarshaling JSON: " ++ err)%string)
  | (jp, None) =>
      match Pages jp with
      | p :: _ =>
          if is_empty (Base64PageData p) then
            r <- GenerateImage (options_of_input (InputFile p)) ;;
            ret (snd r)
          else
            match base64_DecodeString os (Base64PageData p) with
            | (_, Some err) =>
                ret (nil_slice,
                     Some ("error decoding base 64 input on page 0: " ++ err)%string)
            | (buf, None) =>
                r <- GenerateImage
                       (options_of_html (string_of_list_byte (elems buf))) ;;
                ret (snd r)
            end
      | [] => ret (nil_slice, None)
      end
  end.

End Invoker.

(** ** A small concrete system, for running the definitions *)

Module Sample.

Definition header : list byte := [x89; x50; x4e; x47].

(** A codec whose streams are a four-byte header followed by the
    picture's bytes. *)
Definition codec : Codec (list byte) :=
  mkCodec (list byte)
    (fun stream =>
       match stream with
       | x89 :: x50 :: x4e :: x47 :: picture => Some picture
       | _ => None
       end)
    (fun picture => make_slice (header ++ picture)).

Fixpoint has_slash (s : string) : bool :=
  match s with
  | EmptyString => false
  | String c s' => Ascii.eqb c "/" || has_slash s'
  end.

(** The path up to its last separator. *)
Fixpoint Dir (s : string) : string :=
  match s with
  | EmptyString => ""
  | String c s' => if has_slash s' then String c (Dir s') else ""
  end.

Definition Abs (s : string) : string * option error :=
  match s with
  | String "/" _ => (s, None)
  | _ => (("/work/" ++ s)%string, None)
  end.

Definition Join (a b : string) : string := (a ++ "/" ++ b)%string.

Fixpoint lookup {V} (k : string) (l : list (string * V)) : option V :=
  match l with
  | [] => None
  | (k', v) :: l' => if String.eqb k k' then Some v else lookup k l'
  end.

Definition mem (k : string) (l : list string) : bool :=
  existsb (String.eqb k) l.

(** One directory, [/usr/bin], on the search path. *)
Definition LookPath (installed : list string) (file : string)
  : string * option error :=
  let candidate := if has_slash file then file else Join "/usr/bin" file in
  if mem candidate installed then (candidate, None)
  else ("", Some "executable file not found").

Record Fixture : Type := mkFixture {
  installed : list string;
  environ : list (string * string);
  output : bytes;
  status : option error;
  documents : list (string * jsonPDFGenerator);
  blobs : list (string * string)
}.

Definition system (f : Fixture) : OS :=
  mkOS "/srv/app/server" Dir Abs Join (LookPath (installed f))
    (fun key => match lookup key (environ f) with
                | Some v => v
                | None => ""
                end)
    (fun _ _ _ => (output f, status f))
    (fun reader =>
       match lookup (string_of_list_byte reader) (documents f) with
       | Some jp => (jp, None)
       | None => (mkJsonPDFGenerator [], Some "unexpected end of JSON input")
       end)
    (fun s =>
       match lookup s (blobs f) with
       | Some html => (make_slice (list_byte_of_string html), None)
       | None => (nil_slice, Some "illegal base64 data at input byte 0")
       end).

(** No binary anywhere, nothing in the environment. *)
Definition bare : Fixture :=
  mkFixture [] [] (make_slice [x6f; x6b]) None
    [("{}", mkJsonPDFGenerator [])] [].

(** The binary is installed in [/usr/bin]. *)
Definition installed_on_path : Fixture :=
  mkFixture ["/usr/bin/wkhtmltoimage"] [] (make_slice [x6f; x6b]) None
    [("{}", mkJsonPDFGenerator [])] [].

Definition run {A} (m : M A) (cached : string) :=
  m (stringStore.mk cached).

End Sample.

(** More systems of the same kind, for the runs further down. *)

Module Fixtures.

(** The binary sits next to the running program and also in [/usr/bin]. *)
Definition next_to_program : Sample.Fixture :=
  Sample.mkFixture ["/usr/bin/wkhtmltoimage"; "/srv/app/wkhtmltoimage"] []
    (make_slice [x6f; x6b]) None [] [].

(** The binary is only in the directory the environment variable names. *)
Definition in_env_dir : Sample.Fixture :=
  Sample.mkFixture ["/opt/wk/wkhtmltoimage"]
    [("WKHTMLTOIMAGE_PATH", "/opt/wk")]
    (make_slice [x6f; x6b]) None [] [].



(** Page lists the table decoder knows, each under the text that stands
    for its document, and one base64 blob. *)
Definition with_pages : Sample.Fixture :=
  Sample.mkFixture ["/usr/bin/wkhtmltoimage"] []
    (make_slice [x6f; x6b]) None
    [("one", mkJsonPDFGenerator [mkJsonPage "a.html" ""]);
     ("two", mkJsonPDFGenerator [mkJsonPage "a.html" "";
                                 mkJsonPage "b.html" ""]);
     ("blank", mkJsonPDFGenerator [mkJsonPage "" ""]);
     ("html", mkJsonPDFGenerator [mkJsonPage "ignored.html" "PHA+aGk8L3A+"]);
     ("bad64", mkJsonPDFGenerator [mkJsonPage "a.html" "%%%"])]
    [("PHA+aGk8L3A+", "<p>hi</p>")].

End Fixtures.

(** ** Reading the translator's results *)

Definition options_after (o : ImageOptions) : ImageOptions :=
  fst (buildParams o).
Definition args_of (o : ImageOptions) : list string :=
  fst (snd (buildParams o)).
Definition err_of (o : ImageOptions) : option error :=
  snd (snd (buildParams o)).

(** The element right after the first occurrence of [flag]. *)
Fixpoint following (flag : string) (l : list string) : option string :=
  match l with
  | [] => None
  | x :: l' => if String.eqb x flag then hd_error l' else following flag l'
  end.

(** The three integer options and their flags. *)
Inductive dimension : Type := height | width | quality.

Definition flag_name (d : dimension) : string :=
  match d with
  | height => "--height"
  | width => "--width"
  | quality => "--quality"
  end.

Definition field (d : dimension) (o : ImageOptions) : Z :=
  match d with
  | height => Height o
  | width => Width o
  | quality => Quality o
  end.

(** Error texts are compared up to letter case. *)
Definition lower_ascii (c : ascii) : ascii :=
  let n := N_of_ascii c in
  if ((65 <=? n) && (n <=? 90))%N then ascii_of_N (n + 32) else c.

Fixpoint lower (s : string) : string :=
  match s with
  | EmptyString => EmptyString
  | String c s' => String (lower_ascii c) (lower s')
  end.

Fixpoint prefixb (p s : string) : bool :=
  match p, s with
  | EmptyString, _ => true
  | String a p', String b s' => Ascii.eqb a b && prefixb p' s'
  | String _ _, EmptyString => false
  end.

(** [mentions p s]: the text [p] occurs in [s]. *)
Fixpoint mentions (p s : string) : bool :=
  prefixb p s ||
  match s with
  | EmptyString => false
  | String _ s' => mentions p s'
  end.

Definition is_run (e : Event) : bool :=
  match e with
  | EvRun _ _ _ => true
  | _ => false
  end.

(** [fmt.Println(err.Error())] after a failed run. *)
Definition println_events (err : option error) : list Event :=
  match err with
  | Some e => [EvPrintln e]
  | None => []
  end.

Definition stdin_of (o : ImageOptions) : option string :=
  if is_empty (Html o) then None else Some (Html o).

(** The three discovery steps of [findPath], each read off the system. *)
Definition adjacent_fails (os : OS) : bool :=
  match filepath_Abs os (filepath_Dir os (os_Args0 os)) with
  | (exeDir, None) =>
      negb (found (exec_LookPath os (filepath_Join os exeDir exe)))
  | (_, Some _) => true
  end.

Definition search_path_fails (os : OS) : bool :=
  negb (found (exec_LookPath os exe)).

Definition env_dir_fails (os : OS) : bool :=
  let dir := os_Getenv os "WKHTMLTOIMAGE_PATH" in
  is_empty dir || negb (found (exec_LookPath os (filepath_Join os dir exe))).

(** The values that follow [--format] and that close the list. *)
Definition format_value (o : ImageOptions) : string :=
  if is_empty (Format o) then "png" else Format o.

Definition output_value (o : ImageOptions) : string :=
  if is_empty (Output o) then "-" else Output o.

(** * Properties *)

(** ** strconv: rendering and parsing agree *)

Module strconv_facts.
Import strconv.

Lemma small_digit (d : Z) :
  0 <= d < 10 ->
  d = 0 \/ d = 1 \/ d = 2 \/ d = 3 \/ d = 4 \/
  d = 5 \/ d = 6 \/ d = 7 \/ d = 8 \/ d = 9.
Proof. lia. Qed.

Lemma digit_val_digit_char (d : Z) :
  0 <= d < 10 -> digit_val (digit_char d) = Some d.
Proof.
  intros H. destruct (small_digit d H) as [E|[E|[E|[E|[E|[E|[E|[E|[E|E]]]]]]]]];
    subst d; reflexivity.
Qed.

Lemma digit_char_not_sign (d : Z) :
  0 <= d < 10 ->
  Ascii.eqb (digit_char d) "-" = false /\ Ascii.eqb (digit_char d) "+" = false.
Proof.
  intros H. destruct (small_digit d H) as [E|[E|[E|[E|[E|[E|[E|[E|[E|E]]]]]]]]];
    subst d; split; reflexivity.
Qed.

(** Parsing the rendered digits continues the accumulator [a] shifted
    by the number [k] of digits produced. *)
Lemma parse_format_digits (fuel : nat) :
  forall u, 0 <= u < 10 ^ Z.of_nat fuel ->
  exists k : nat, forall acc a,
    parse_digits (format_digits fuel u acc) a
    = parse_digits acc (a * 10 ^ Z.of_nat k + u).
Proof.
  induction fuel as [|fuel IH]; intros u Hu.
  - exists 0%nat. intros acc a. simpl in *.
    replace u with 0 by lia. f_equal. lia.
  - cbn [format_digits]. destruct (Z.ltb_spec u 10) as [Hlt|Hge].
    + exists 1%nat. intros acc a. cbn [parse_digits].
      rewrite digit_val_digit_char by lia. reflexivity.
    + assert (Hq : 0 <= u / 10 < 10 ^ Z.of_nat fuel).
      { split; [apply Z.div_pos; lia|].
        apply Z.div_lt_upper_bound; [lia|].
        rewrite Nat2Z.inj_succ, Z.pow_succ_r in Hu by lia. lia. }
      destruct (IH _ Hq) as [k Hk]. exists (S k). intros acc a.
      rewrite Hk. cbn [parse_digits].
      rewrite digit_val_digit_char by (apply Z.mod_pos_bound; lia).
      f_equal. rewrite Nat2Z.inj_succ, Z.pow_succ_r by lia.
      pose proof (Z.div_mod u 10 ltac:(lia)). lia.
Qed.

(** The rendering never starts with a sign. *)
Lemma format_digits_grows (fuel : nat) :
  forall u d acc, 0 <= u -> 0 <= d < 10 ->
  exists d' rest, 0 <= d' < 10 /\
    format_digits fuel u (String (digit_char d) acc)
    = String (digit_char d') rest.
Proof.
  induction fuel as [|fuel IH]; intros u d acc Hu Hd.
  - exists d, acc. split; [lia | reflexivity].
  - cbn [format_digits]. destruct (Z.ltb_spec u 10).
    + exists u, (String (digit_char d) acc). split; [lia | reflexivity].
    + apply IH; [apply Z.div_pos; lia | apply Z.mod_pos_bound; lia].
Qed.

Lemma format_digits_head (fuel : nat) (u : Z) (acc : string) :
  0 <= u ->
  exists d rest, 0 <= d < 10 /\
    format_digits (S fuel) u acc = String (digit_char d) rest.
Proof.
  intros Hu. cbn [format_digits]. destruct (Z.ltb_spec u 10).
  - exists u, acc. split; [lia | reflexivity].
  - apply format_digits_grows; [apply Z.div_pos; lia | apply Z.mod_pos_bound; lia].
Qed.

Lemma int_range_fits (z : Z) :
  int_range z -> 0 <= Z.abs z < 10 ^ Z.of_nat buffer_size.
Proof.
  unfold int_range. intros H.
  assert (2 ^ 63 < 10 ^ Z.of_nat buffer_size) by (vm_compute; reflexivity).
  lia.
Qed.

Lemma int_rangeb_true (z : Z) : int_range z -> int_rangeb z = true.
Proof.
  unfold int_range, int_rangeb. intros [H1 H2].
  apply andb_true_intro. split; [apply Z.leb_le | apply Z.ltb_lt]; assumption.
Qed.

(** [Atoi(Itoa(i)) = i] for every [int]. *)
Lemma Atoi_Itoa (z : Z) : int_range z -> Atoi (Itoa z) = Some z.
Proof.
  intros Hz. pose proof (int_range_fits z Hz) as Hfit.
  unfold Itoa. destruct (Z.ltb_spec z 0) as [Hneg|Hpos].
  - replace (Z.abs z) with (- z) in Hfit by lia.
    destruct (parse_format_digits buffer_size (- z) Hfit) as [k Hk].
    destruct (format_digits_head 64 (- z) "" ltac:(lia)) as (d & rest & Hd & E).
    change (S 64) with buffer_size in E.
    unfold Atoi. rewrite Ascii.eqb_refl. cbn [orb].
    rewrite E. rewrite <- E. rewrite Hk. cbn [parse_digits].
    replace (0 * 10 ^ Z.of_nat k + - z) with (- z) by lia.
    rewrite Z.opp_involutive, int_rangeb_true by assumption. reflexivity.
  - replace (Z.abs z) with z in Hfit by lia.
    destruct (parse_format_digits buffer_size z Hfit) as [k Hk].
    destruct (format_digits_head 64 z "" ltac:(lia)) as (d & rest & Hd & E).
    change (S 64) with buffer_size in E.
    destruct (digit_char_not_sign d Hd) as [Hm Hp].
    unfold Atoi. rewrite E, Hm, Hp. cbn [orb]. rewrite <- E, Hk.
    cbn [parse_digits].
    replace (0 * 10 ^ Z.of_nat k + z) with z by lia.
    rewrite int_rangeb_true by assumption. reflexivity.
Qed.

(** A rendered integer is never one of the [--flag] strings. *)
Lemma Itoa_not_flag (z : Z) (s : string) :
  Itoa z <> String "-" (String "-" s).
Proof.
  unfold Itoa. destruct (Z.ltb_spec z 0) as [Hneg|Hpos].
  - destruct (format_digits_head 64 (- z) "" ltac:(lia)) as (d & rest & Hd & E).
    change (S 64) with buffer_size in E. rewrite E. intros Habs.
    injection Habs as Hc _. destruct (digit_char_not_sign d Hd) as [Hm _].
    rewrite Hc, Ascii.eqb_refl in Hm. discriminate.
  - destruct (format_digits_head 64 z "" ltac:(lia)) as (d & rest & Hd & E).
    change (S 64) with buffer_size in E. rewrite E. intros Habs.
    injection Habs as Hc _. destruct (digit_char_not_sign d Hd) as [Hm _].
    rewrite Hc, Ascii.eqb_refl in Hm. discriminate.
Qed.

End strconv_facts.

(** ** The option translator *)

Lemma is_empty_false (s : string) : s <> "" -> is_empty s = false.
Proof. destruct s; [congruence | reflexivity]. Qed.

Lemma is_empty_true (s : string) : is_empty s = true -> s = "".
Proof. destruct s; [reflexivity | discriminate]. Qed.

(** The shape of every successful translation. *)
Lemma buildParams_valid (o : ImageOptions) :
  Input o <> "" ->
  buildParams o =
  (if String.eqb (Input o) "-" then o else set_Html o "",
   ("-q" :: "--disable-plugins" :: "--format" :: format_value o ::
      int_flag "--height" (Height o) ++ int_flag "--width" (Width o) ++
      int_flag "--quality" (Quality o) ++ [Input o; output_value o],
    None)).
Proof.
  intros Hin. unfold buildParams. rewrite (is_empty_false _ Hin).
  cbv zeta. f_equal.
  assert (E : Input (if String.eqb (Input o) "-" then o else set_Html o "")
              = Input o) by (destruct (String.eqb (Input o) "-"); reflexivity).
  assert (E' : Output (if String.eqb (Input o) "-" then o else set_Html o "")
               = Output o) by (destruct (String.eqb (Input o) "-"); reflexivity).
  rewrite E, E'. unfold format_value, output_value.
  repeat rewrite <- app_assoc. reflexivity.
Qed.

Lemma args_of_valid (o : ImageOptions) :
  Input o <> "" ->
  args_of o =
  "-q" :: "--disable-plugins" :: "--format" :: format_value o ::
    int_flag "--height" (Height o) ++ int_flag "--width" (Width o) ++
    int_flag "--quality" (Quality o) ++ [Input o; output_value o].
Proof. intros H. unfold args_of. rewrite buildParams_valid by assumption. reflexivity. Qed.

Lemma following_skip (flag x : string) (l : list string) :
  x <> flag -> following flag (x :: l) = following flag l.
Proof. intros H. cbn [following]. apply String.eqb_neq in H. rewrite H. reflexivity. Qed.

Lemma following_hit (flag y : string) (l : list string) :
  following flag (flag :: y :: l) = Some y.
Proof. cbn [following]. rewrite String.eqb_refl. reflexivity. Qed.

Lemma format_value_not (o : ImageOptions) (s : string) :
  Format o <> s -> "png" <> s -> format_value o <> s.
Proof. unfold format_value. destruct (is_empty (Format o)); auto. Qed.

Lemma output_value_not (o : ImageOptions) (s : string) :
  Output o <> s -> "-" <> s -> output_value o <> s.
Proof. unfold output_value. destruct (is_empty (Output o)); auto. Qed.

(** Discharges [x <> "--flag"] for the elements the translator emits. *)
Ltac not_flag :=
  solve [ discriminate
        | assumption
        | apply strconv_facts.Itoa_not_flag
        | apply format_value_not; [assumption | discriminate]
        | apply output_value_not; [assumption | discriminate] ].

Ltac skip_to_flag :=
  repeat first [ rewrite following_hit | rewrite following_skip by not_flag ].

Ltac no_flag_here :=
  cbn [In]; let Hmem := fresh "Hmem" in intros Hmem;
  repeat match goal with
         | H : _ \/ _ |- _ => destruct H
         | H : False |- _ => destruct H
         | H : ?x = ?f |- _ =>
             exfalso; revert H; change (x <> f); not_flag
         end.

(** C6: with an empty input the translator fails with the validation error
    "Must provide input" (the spec's "must provide input" up to letter
    case), whatever the other fields hold; the argument list is empty and
    the record is left as it was. *)
Theorem buildParams_empty_input (o : ImageOptions) :
  Input o = "" ->
  buildParams o = (o, ([], Some "Must provide input")) /\
  exists e, err_of o = Some e /\ lower e = "must provide input".
Proof.
  intros H. unfold err_of, buildParams. rewrite H. cbn [is_empty].
  split; [reflexivity|]. exists "Must provide input". split; reflexivity.
Qed.

Lemma buildParams_empty_input_witness :
  buildParams (mkImageOptions "/usr/bin/wkhtmltoimage" "" "jpg" 600 800 90
                              "<p>hi</p>" "/tmp/out.jpg")
  = (mkImageOptions "/usr/bin/wkhtmltoimage" "" "jpg" 600 800 90
                    "<p>hi</p>" "/tmp/out.jpg",
     ([], Some "Must provide input")) /\
  exists e,
    err_of (mkImageOptions "/usr/bin/wkhtmltoimage" "" "jpg" 600 800 90
                           "<p>hi</p>" "/tmp/out.jpg") = Some e /\
    lower e = "must provide input".
Proof.
  apply (buildParams_empty_input
           (mkImageOptions "/usr/bin/wkhtmltoimage" "" "jpg" 600 800 90
                           "<p>hi</p>" "/tmp/out.jpg")).
  reflexivity.
Defined.

(** C7: for a non-empty input the argument list ends with the input source
    followed by the output destination, or by "-" when the destination is
    empty, and the translation succeeds. *)
Theorem buildParams_last_two (o : ImageOptions) :
  Input o <> "" ->
  err_of o = None /\
  exists front,
    args_of o =
    front ++ [Input o; if is_empty (Output o) then "-" else Output o].
Proof.
  intros H. unfold err_of. rewrite args_of_valid, buildParams_valid by assumption.
  split; [reflexivity|].
  exists ("-q" :: "--disable-plugins" :: "--format" :: format_value o ::
            int_flag "--height" (Height o) ++ int_flag "--width" (Width o) ++
            int_flag "--quality" (Quality o)).
  cbn [app]. repeat rewrite <- app_assoc. reflexivity.
Qed.

Lemma buildParams_last_two_witness :
  err_of (mkImageOptions "" "http://example.com" "" 0 640 0 "" "") = None /\
  exists front,
    args_of (mkImageOptions "" "http://example.com" "" 0 640 0 "" "") =
    front ++ ["http://example.com"; "-"].
Proof.
  apply (buildParams_last_two
           (mkImageOptions "" "http://example.com" "" 0 640 0 "" "")).
  discriminate.
Defined.

Lemma buildParams_format_flag_shape (o : ImageOptions) :
  Input o <> "" ->
  nth_error (args_of o) 2 = Some "--format" /\
  nth_error (args_of o) 3 = Some (format_value o) /\
  following "--format" (args_of o) = Some (format_value o).
Proof.
  intros H. rewrite args_of_valid by assumption.
  split; [reflexivity|]. split; [reflexivity|].
  rewrite following_skip by discriminate.
  rewrite following_skip by discriminate.
  apply following_hit.
Qed.

(** C9: for a non-empty input the translator always emits the format flag,
    third in the list after the two fixed flags, and the element following
    it is "png" when [Format] is empty and [Format] itself otherwise. *)
Theorem buildParams_format_flag (o : ImageOptions) :
  Input o <> "" ->
  nth_error (args_of o) 2 = Some "--format" /\
  nth_error (args_of o) 3
  = Some (if is_empty (Format o) then "png" else Format o) /\
  following "--format" (args_of o)
  = Some (if is_empty (Format o) then "png" else Format o).
Proof. exact (buildParams_format_flag_shape o). Qed.

Lemma buildParams_format_flag_witness :
  nth_error (args_of (mkImageOptions "" "a.html" "svg" 0 0 0 "" "o.svg")) 2
  = Some "--format" /\
  nth_error (args_of (mkImageOptions "" "a.html" "svg" 0 0 0 "" "o.svg")) 3
  = Some "svg" /\
  following "--format"
    (args_of (mkImageOptions "" "a.html" "svg" 0 0 0 "" "o.svg"))
  = Some "svg".
Proof.
  apply (buildParams_format_flag
           (mkImageOptions "" "a.html" "svg" 0 0 0 "" "o.svg")).
  discriminate.
Defined.

(** The claim of C8 fails as stated: an input source that spells a flag
    puts that flag in the list although the option is zero. *)
Lemma height_flag_without_height :
  Input (mkImageOptions "" "--height" "" 0 0 0 "" "") <> "" /\
  Height (mkImageOptions "" "--height" "" 0 0 0 "" "") = 0 /\
  args_of (mkImageOptions "" "--height" "" 0 0 0 "" "")
  = ["-q"; "--disable-plugins"; "--format"; "png"; "--height"; "-"] /\
  In "--height" (args_of (mkImageOptions "" "--height" "" 0 0 0 "" "")) /\
  following "--height" (args_of (mkImageOptions "" "--height" "" 0 0 0 "" ""))
  = Some "-" /\
  strconv.Atoi "-" = None.
Proof.
  split; [discriminate|]. split; [reflexivity|]. split; [reflexivity|].
  split; [vm_compute; tauto|]. split; reflexivity.
Qed.

Ltac flag_is_here :=
  cbn [In]; repeat first [ left; reflexivity | right ].

(** C8, amended: for a non-empty input, and provided none of [Format],
    [Input] and [Output] is itself the flag's text, the height, width or
    quality flag is in the argument list exactly when the option is
    non-zero, and then the element following it parses back, base 10, to
    the option's value. *)
Theorem buildParams_int_flag (o : ImageOptions) (d : dimension) :
  Input o <> "" ->
  Format o <> flag_name d ->
  Input o <> flag_name d ->
  Output o <> flag_name d ->
  strconv.int_range (field d o) ->
  (In (flag_name d) (args_of o) <-> field d o <> 0) /\
  (field d o <> 0 ->
   exists v, following (flag_name d) (args_of o) = Some v /\
             strconv.Atoi v = Some (field d o)).
Proof.
  intros Hin Hf Hi Ho Hr. rewrite args_of_valid by assumption.
  unfold int_flag.
  destruct (Z.eqb_spec (Height o) 0) as [Eh|Eh];
    destruct (Z.eqb_spec (Width o) 0) as [Ew|Ew];
    destruct (Z.eqb_spec (Quality o) 0) as [Eq|Eq];
    cbn [app]; destruct d; cbn [flag_name field] in *;
    (split;
     [ split;
       [ first [ intros _; assumption | intros Hmem; exfalso; revert Hmem; no_flag_here ]
       | first [ intros Hnz; contradiction | intros _; flag_is_here ] ]
     | first
         [ intros Hnz; contradiction
         | intros _; eexists; split;
           [ skip_to_flag; reflexivity
           | apply strconv_facts.Atoi_Itoa; assumption ] ] ]).
Qed.

Lemma buildParams_int_flag_witness :
  (In "--height"
      (args_of (mkImageOptions "" "http://example.com" "jpg" 600 0 0 "" ""))
   <-> 600 <> 0) /\
  (600 <> 0 ->
   exists v,
     following "--height"
       (args_of (mkImageOptions "" "http://example.com" "jpg" 600 0 0 "" ""))
     = Some v /\
     strconv.Atoi v = Some 600).
Proof.
  apply (buildParams_int_flag
           (mkImageOptions "" "http://example.com" "jpg" 600 0 0 "" "") height);
    cbn [flag_name field Input Format Output Height];
    try discriminate.
  unfold strconv.int_range. lia.
Defined.

(** ** Discovery and invocation *)

Section InvokerFacts.

Variable os : OS.
Context {Image : Type}.
Variables png jpeg : Codec Image.

Ltac run_steps :=
  unfold findPath, GetWKHTMLToImagePath, binImagePath_Get, binImagePath_Set,
    Abs, LookPath, Getenv, CombinedOutput, Println, emit, ret, lift, bind,
    result_of, store_of, events_of, stringStore.Get, stringStore.Set_;
  cbn [fst snd app].

(** With a cached path [findPath] only reads the cache. *)
Lemma findPath_cached (st : stringStore.t) :
  stringStore.Get st <> "" ->
  findPath os st = (Ret None, st, [EvGet]).
Proof.
  intros H. run_steps. unfold stringStore.Get in H.
  rewrite (is_empty_false _ H). reflexivity.
Qed.

(** [findPath] never panics and never starts a process. *)
Lemma findPath_quiet (st : stringStore.t) :
  exists e st1 t1,
    findPath os st = (Ret e, st1, t1) /\ existsb is_run t1 = false.
Proof.
  run_steps.
  destruct (is_empty (stringStore.val st)); cbn [negb].
  - destruct (filepath_Abs os (filepath_Dir os (os_Args0 os))) as [exeDir [e|]].
    + do 3 eexists. split; reflexivity.
    + destruct (found (exec_LookPath os (filepath_Join os exeDir exe))).
      * do 3 eexists. split; reflexivity.
      * destruct (found (exec_LookPath os exe)).
        -- do 3 eexists. split; reflexivity.
        -- destruct (is_empty (os_Getenv os "WKHTMLTOIMAGE_PATH")).
           ++ do 3 eexists. split; reflexivity.
           ++ destruct (found (exec_LookPath os
                 (filepath_Join os (os_Getenv os "WKHTMLTOIMAGE_PATH") exe)));
                do 3 eexists; (split; reflexivity).
  - do 3 eexists. split; reflexivity.
Qed.

Lemma options_after_valid (o : ImageOptions) :
  Input o <> "" ->
  options_after o = if String.eqb (Input o) "-" then o else set_Html o "".
Proof.
  intros H. unfold options_after. rewrite buildParams_valid by assumption.
  reflexivity.
Qed.

Lemma options_after_fields (o : ImageOptions) :
  BinaryPath (options_after o) = BinaryPath o /\
  Input (options_after o) = Input o /\
  Format (options_after o) = Format o.
Proof.
  unfold options_after, buildParams.
  destruct (is_empty (Input o)); cbv zeta; cbn [fst];
    [| destruct (String.eqb (Input o) "-")]; repeat split.
Qed.

(** What one call does once the options are valid and a path is explicit. *)
Lemma GenerateImage_explicit (o : ImageOptions) (st st1 : stringStore.t)
      (e : option error) (t1 : list Event) :
  Input o <> "" ->
  BinaryPath o <> "" ->
  findPath os st = (Ret e, st1, t1) ->
  let out := cmd_CombinedOutput os (BinaryPath o) (args_of o)
                                (stdin_of (options_after o)) in
  GenerateImage os png jpeg o st =
  (match cleanupOutput png jpeg (fst out) (Format o) with
   | Ret trimmed => Ret (options_after o, (trimmed, snd out))
   | Panic p => Panic p
   end,
   st1,
   t1 ++ EvRun (BinaryPath o) (args_of o) (stdin_of (options_after o))
      :: println_events (snd out)).
Proof.
  intros Hin Hbin Hfind. cbv zeta.
  destruct (options_after_fields o) as (Eb & Ei & Ef).
  unfold GenerateImage.
  assert (Hbp : buildParams o = (options_after o, (args_of o, None))).
  { unfold options_after, args_of. rewrite buildParams_valid by assumption.
    reflexivity. }
  rewrite Hbp. unfold bind at 1. rewrite Hfind.
  unfold bind at 1. rewrite Eb, (is_empty_false _ Hbin).
  unfold ret at 1. unfold bind at 1.
  unfold CombinedOutput, emit. rewrite ?Eb, ?Ef.
  change (if is_empty (Html (options_after o)) then None
          else Some (Html (options_after o)))
    with (stdin_of (options_after o)).
  destruct (cmd_CombinedOutput os (BinaryPath o) (args_of o)
              (stdin_of (options_after o))) as [output err].
  cbn [fst snd].
  destruct err as [msg|]; unfold bind, Println, emit, ret, lift;
    destruct (cleanupOutput png jpeg output (Format o)); reflexivity.
Qed.

(** What one call does when the options are valid and name no path. *)
Lemma GenerateImage_discovered (o : ImageOptions) (st st1 : stringStore.t)
      (e : option error) (t1 : list Event) :
  Input o <> "" ->
  BinaryPath o = "" ->
  findPath os st = (Ret e, st1, t1) ->
  GenerateImage os png jpeg o st =
  if is_empty (stringStore.Get st1) then
    (Ret (set_BinaryPath (options_after o) "",
          (make_slice [], Some "BinaryPath not set")),
     st1, t1 ++ [EvGet])
  else
    (match cleanupOutput png jpeg
             (fst (cmd_CombinedOutput os (stringStore.Get st1) (args_of o)
                                      (stdin_of (options_after o))))
             (Format o) with
     | Ret trimmed =>
         Ret (set_BinaryPath (options_after o) (stringStore.Get st1),
              (trimmed,
               snd (cmd_CombinedOutput os (stringStore.Get st1) (args_of o)
                                       (stdin_of (options_after o)))))
     | Panic p => Panic p
     end,
     st1,
     t1 ++ EvGet
        :: EvRun (stringStore.Get st1) (args_of o) (stdin_of (options_after o))
        :: println_events
             (snd (cmd_CombinedOutput os (stringStore.Get st1) (args_of o)
                                      (stdin_of (options_after o))))).
Proof.
  intros Hin Hbin Hfind.
  destruct (options_after_fields o) as (Eb & Ei & Ef).
  unfold GenerateImage.
  assert (Hbp : buildParams o = (options_after o, (args_of o, None))).
  { unfold options_after, args_of. rewrite buildParams_valid by assumption.
    reflexivity. }
  rewrite Hbp. unfold bind at 1. rewrite Hfind.
  unfold bind at 1. rewrite Eb, Hbin. cbn [is_empty].
  unfold bind at 1, GetWKHTMLToImagePath, binImagePath_Get.
  unfold ret at 1.
  destruct (is_empty (stringStore.Get st1)) eqn:Hc.
  - apply is_empty_true in Hc. rewrite Hc. reflexivity.
  - unfold bind at 1. unfold CombinedOutput, emit.
    cbn [BinaryPath Format Html set_BinaryPath]. rewrite ?Ef.
    change (if is_empty (Html (options_after o)) then None
            else Some (Html (options_after o)))
      with (stdin_of (options_after o)).
    destruct (cmd_CombinedOutput os (stringStore.Get st1) (args_of o)
                (stdin_of (options_after o))) as [output err].
    cbn [fst snd].
    destruct err as [msg|]; unfold bind, Println, emit, ret, lift;
      destruct (cleanupOutput png jpeg output (Format o)); reflexivity.
Qed.

Lemma no_run_in (t : list Event) (name : string) (args : list string)
      (stdin : option string) :
  existsb is_run t = false -> ~ In (EvRun name args stdin) t.
Proof.
  intros H Hin.
  assert (existsb is_run t = true)
    by (apply existsb_exists; exists (EvRun name args stdin); split;
        [assumption | reflexivity]).
  congruence.
Qed.

Lemma no_run_in_println (err : option error) :
  existsb is_run (println_events err) = false.
Proof. destruct err; reflexivity. Qed.

(** When the cache is empty and every step fails, [findPath] returns an
    error and leaves the cache empty. *)
Lemma findPath_fails (st : stringStore.t) :
  stringStore.Get st = "" ->
  adjacent_fails os = true ->
  search_path_fails os = true ->
  env_dir_fails os = true ->
  exists e t1,
    findPath os st = (Ret (Some e), st, t1) /\ existsb is_run t1 = false.
Proof.
  unfold adjacent_fails, search_path_fails, env_dir_fails.
  intros Hc Ha Hs He. run_steps. unfold stringStore.Get in Hc. rewrite Hc.
  cbn [is_empty negb].
  destruct (filepath_Abs os (filepath_Dir os (os_Args0 os))) as [exeDir [e|]].
  - do 2 eexists. split; reflexivity.
  - apply negb_true_iff in Ha, Hs. rewrite Ha, Hs.
    destruct (is_empty (os_Getenv os "WKHTMLTOIMAGE_PATH")).
    + do 2 eexists. split; reflexivity.
    + cbn [orb] in He. apply negb_true_iff in He. rewrite He.
      do 2 eexists. split; reflexivity.
Qed.

(** C2, amended: with a non-empty input and a non-empty explicit binary
    path, the process is spawned with that path and the translated
    arguments.  Discovery is not skipped: [findPath] runs first exactly as
    it does on its own, so the cache is read and, when it is empty, the
    lookups are made and a hit is stored. *)
Theorem GenerateImage_explicit_path (o : ImageOptions) (st : stringStore.t) :
  Input o <> "" ->
  BinaryPath o <> "" ->
  store_of (GenerateImage os png jpeg o st) = store_of (findPath os st) /\
  exists err,
    events_of (GenerateImage os png jpeg o st) =
    events_of (findPath os st)
    ++ EvRun (BinaryPath o) (args_of o) (stdin_of (options_after o))
    :: println_events err.
Proof.
  intros Hin Hbin.
  destruct (findPath_quiet st) as (e & st1 & t1 & Hfind & _).
  rewrite (GenerateImage_explicit o st st1 e t1 Hin Hbin Hfind), Hfind.
  split; [reflexivity|]. eexists. reflexivity.
Qed.

(** C3, amended: with a non-empty input, no explicit binary path, an empty
    cache and all three discovery steps failing, the call returns the error
    "BinaryPath not set" with an empty byte slice; the cache stays empty
    and no process is started. *)
Theorem GenerateImage_no_binary (o : ImageOptions) (st : stringStore.t) :
  Input o <> "" ->
  BinaryPath o = "" ->
  stringStore.Get st = "" ->
  adjacent_fails os = true ->
  search_path_fails os = true ->
  env_dir_fails os = true ->
  result_of (GenerateImage os png jpeg o st)
  = Ret (set_BinaryPath (options_after o) "",
         (make_slice [], Some "BinaryPath not set")) /\
  store_of (GenerateImage os png jpeg o st) = st /\
  existsb is_run (events_of (GenerateImage os png jpeg o st)) = false.
Proof.
  intros Hin Hbin Hc Ha Hs He.
  destruct (findPath_fails st Hc Ha Hs He) as (e & t1 & Hfind & Hquiet).
  rewrite (GenerateImage_discovered o st st (Some e) t1 Hin Hbin Hfind), Hc.
  cbn [is_empty]. unfold result_of, store_of, events_of. cbn [fst snd].
  repeat split. rewrite existsb_app, Hquiet. reflexivity.
Qed.

(** C4: when the input is non-empty and is not "-", the translator leaves
    the record with an empty [Html], and no process started by the call is
    given anything on its standard input. *)
Theorem GenerateImage_no_stdin (o : ImageOptions) (st : stringStore.t) :
  Input o <> "" ->
  Input o <> "-" ->
  Html (options_after o) = "" /\
  forall name args stdin,
    In (EvRun name args stdin) (events_of (GenerateImage os png jpeg o st)) ->
    stdin = None.
Proof.
  intros Hin Hdash.
  assert (Hhtml : Html (options_after o) = "").
  { rewrite options_after_valid by assumption.
    apply String.eqb_neq in Hdash. rewrite Hdash. reflexivity. }
  assert (Hstdin : stdin_of (options_after o) = None)
    by (unfold stdin_of; rewrite Hhtml; reflexivity).
  split; [assumption|]. intros name args stdin Hev.
  destruct (findPath_quiet st) as (e & st1 & t1 & Hfind & Hquiet).
  destruct (is_empty (BinaryPath o)) eqn:Hb.
  - apply is_empty_true in Hb.
    rewrite (GenerateImage_discovered o st st1 e t1 Hin Hb Hfind) in Hev.
    destruct (is_empty (stringStore.Get st1));
      unfold events_of in Hev; cbn [snd] in Hev;
      apply in_app_or in Hev; destruct Hev as [Hev|Hev];
      try (exfalso; exact (no_run_in _ _ _ _ Hquiet Hev)).
    + destruct Hev as [Hev|[]]. discriminate.
    + destruct Hev as [Hev|[Hev|Hev]]; [discriminate | |].
      * injection Hev as _ _ Hs. congruence.
      * exfalso. exact (no_run_in _ _ _ _ (no_run_in_println _) Hev).
  - assert (Hb' : BinaryPath o <> "") by (intros E; rewrite E in Hb; discriminate).
    rewrite (GenerateImage_explicit o st st1 e t1 Hin Hb' Hfind) in Hev.
    unfold events_of in Hev. cbn [snd] in Hev.
    apply in_app_or in Hev. destruct Hev as [Hev|[Hev|Hev]].
    + exfalso. exact (no_run_in _ _ _ _ Hquiet Hev).
    + injection Hev as _ _ Hs. congruence.
    + exfalso. exact (no_run_in _ _ _ _ (no_run_in_println _) Hev).
Qed.

(** C10: a document that decodes without error and lists no page yields
    the nil byte slice and the nil error; nothing is looked up, started or
    stored. *)
Theorem ImageFromJSON_no_pages (jsonReader : list byte)
        (jp : jsonPDFGenerator) (st : stringStore.t) :
  json_Decode os jsonReader = (jp, None) ->
  Pages jp = [] ->
  ImageFromJSON os png jpeg jsonReader st = (Ret (nil_slice, None), st, []).
Proof.
  intros Hdec Hpages. unfold ImageFromJSON. rewrite Hdec, Hpages. reflexivity.
Qed.

End InvokerFacts.

(** ** Output repair *)

Section RepairFacts.

Context {Image : Type}.
Variables png jpeg : Codec Image.

(** Any format other than the two literals leaves the bytes alone. *)
Lemma cleanupOutput_other_format (img : bytes) (format : string) :
  format <> "png" -> format <> "jpg" ->
  cleanupOutput png jpeg img format = Ret img.
Proof.
  intros Hp Hj. unfold cleanupOutput.
  apply String.eqb_neq in Hp, Hj. rewrite Hp, Hj. reflexivity.
Qed.

(** The loop on a buffer none of whose suffixes decodes. *)
Lemma trim_loop_exhausted (c : Codec Image) (img : list byte) :
  (forall k, Decode c (skipn k img) = None) ->
  trim_loop c img =
  match img with
  | [] => Panic slice_bounds_out_of_range
  | _ :: _ => Ret None
  end.
Proof.
  induction img as [|b rest IH]; intros Hnone.
  - pose proof (Hnone 0%nat) as H0. cbn [skipn] in H0.
    cbn [trim_loop]. rewrite H0. reflexivity.
  - pose proof (Hnone 0%nat) as H0. cbn [skipn] in H0.
    cbn [trim_loop]. rewrite H0.
    destruct rest as [|b' rest']; [reflexivity|].
    rewrite IH; [reflexivity|]. intros k. exact (Hnone (S k)).
Qed.

Lemma repair_exhausted (c : Codec Image) (img : bytes) :
  (forall k, Decode c (skipn k (elems img)) = None) ->
  repair c img =
  Panic (match elems img with
         | [] => slice_bounds_out_of_range
         | _ :: _ => nil_pointer_dereference
         end).
Proof.
  intros Hnone. unfold repair. rewrite trim_loop_exhausted by assumption.
  destruct (elems img); reflexivity.
Qed.

(** The loop drops leading bytes until the first suffix that decodes. *)
Lemma trim_loop_strips (c : Codec Image) (noise stream : list byte)
      (m : Image) :
  (forall k, (k < length noise)%nat ->
             Decode c (skipn k (noise ++ stream)) = None) ->
  Decode c stream = Some m ->
  stream <> [] ->
  trim_loop c (noise ++ stream) = Ret (Some m).
Proof.
  induction noise as [|b noise IH]; intros Hnone Hdec Hne.
  - cbn [app]. destruct stream; cbn [trim_loop]; rewrite Hdec; reflexivity.
  - pose proof (Hnone 0%nat ltac:(cbn; lia)) as H0. cbn [skipn app] in H0.
    cbn [app trim_loop]. rewrite H0.
    destruct (noise ++ stream) as [|b' rest] eqn:E.
    + apply app_eq_nil in E. destruct E. contradiction.
    + apply IH; [|assumption|assumption].
      intros k Hk. rewrite <- E. apply (Hnone (S k)). cbn. lia.
Qed.

(** C1, as the code has it: for "png" and "jpg", when no suffix of the
    buffer decodes the function does not return the trimmed buffer; it
    panics, on [img[1:]] for an empty buffer and in the encoder, which is
    handed the nil image, otherwise. *)
Theorem cleanupOutput_exhausted (img : bytes) (format : string) :
  format = "png" \/ format = "jpg" ->
  (forall k, Decode png (skipn k (elems img)) = None) ->
  (forall k, Decode jpeg (skipn k (elems img)) = None) ->
  cleanupOutput png jpeg img format =
  Panic (match elems img with
         | [] => slice_bounds_out_of_range
         | _ :: _ => nil_pointer_dereference
         end).
Proof.
  intros [E|E] Hp Hj; subst format; unfold cleanupOutput; cbn [String.eqb];
    rewrite ?String.eqb_refl.
  - apply repair_exhausted; assumption.
  - change (String.eqb "jpg" "png") with false. cbv iota.
    apply repair_exhausted; assumption.
Qed.

(** C5: with [Format] left empty the captured bytes come back as they are,
    as they do for every format other than the literals "png" and "jpg",
    although the translator passed "png" after [--format]; the record that
    reaches [cleanupOutput] still has the empty [Format]. *)
Theorem cleanupOutput_unset_format (o : ImageOptions) (img : bytes) :
  Input o <> "" ->
  Format o = "" ->
  cleanupOutput png jpeg img (Format (options_after o)) = Ret img /\
  following "--format" (args_of o) = Some "png" /\
  forall format,
    format <> "png" -> format <> "jpg" ->
    cleanupOutput png jpeg img format = Ret img.
Proof.
  intros Hin Hfmt.
  destruct (options_after_fields o) as (_ & _ & Ef).
  rewrite Ef, Hfmt. split; [reflexivity|]. split.
  - destruct (buildParams_format_flag_shape o Hin) as (_ & _ & Hf).
    rewrite Hf. unfold format_value. rewrite Hfmt. reflexivity.
  - intros format. apply cleanupOutput_other_format.
Qed.

End RepairFacts.

(** The repaired output does not depend on the bytes in front of the
    stream: whatever noise precedes a non-empty stream that decodes, the
    result is the re-encoding of that stream's image. *)
Lemma repair_strips_noise {Image : Type} (c : Codec Image)
      (noise stream : list byte) (m : Image) :
  (forall k, (k < length noise)%nat ->
             Decode c (skipn k (noise ++ stream)) = None) ->
  Decode c stream = Some m ->
  stream <> [] ->
  repair c (make_slice (noise ++ stream)) = Ret (Encode c m).
Proof.
  intros Hnone Hdec Hne. unfold repair. cbn [elems].
  rewrite (trim_loop_strips c noise stream m) by assumption. reflexivity.
Qed.

(** ** Concrete runs *)

Lemma cleanupOutput_exhausted_witness :
  cleanupOutput Sample.codec Sample.codec (make_slice [x00; x01]) "png"
  = Panic nil_pointer_dereference.
Proof.
  apply (cleanupOutput_exhausted Sample.codec Sample.codec
           (make_slice [x00; x01]) "png").
  - left. reflexivity.
  - intros [|[|[|k]]]; reflexivity.
  - intros [|[|[|k]]]; reflexivity.
Defined.

(** An empty capture with format "png": the first [img[1:]] is out of
    range. *)
Example cleanupOutput_empty_capture :
  cleanupOutput Sample.codec Sample.codec (make_slice []) "png"
  = Panic slice_bounds_out_of_range /\
  cleanupOutput Sample.codec Sample.codec nil_slice "jpg"
  = Panic slice_bounds_out_of_range.
Proof. split; reflexivity. Qed.

Example cleanupOutput_noisy_capture :
  cleanupOutput Sample.codec Sample.codec
    (make_slice ([x57; x3a; x0a] ++ Sample.header ++ [x01; x02])) "png"
  = Ret (make_slice (Sample.header ++ [x01; x02])).
Proof. reflexivity. Qed.

(** The claim of C2 fails as stated: started with an empty cache and an
    explicit path, the call reads the cache, searches next to the running
    program and on the search path, and stores the hit in the cache before
    it spawns the explicit path. *)
Lemma explicit_path_still_discovers :
  events_of
    (GenerateImage (Sample.system Sample.installed_on_path)
       Sample.codec Sample.codec
       (mkImageOptions "/opt/wk/wkhtmltoimage" "page.html" "" 0 0 0 "" "")
       (stringStore.mk ""))
  = [EvGet; EvAbs "/srv/app"; EvLookPath "/srv/app/wkhtmltoimage";
     EvLookPath "wkhtmltoimage"; EvSet "/usr/bin/wkhtmltoimage";
     EvRun "/opt/wk/wkhtmltoimage"
       ["-q"; "--disable-plugins"; "--format"; "png"; "page.html"; "-"]
       None] /\
  store_of
    (GenerateImage (Sample.system Sample.installed_on_path)
       Sample.codec Sample.codec
       (mkImageOptions "/opt/wk/wkhtmltoimage" "page.html" "" 0 0 0 "" "")
       (stringStore.mk ""))
  = stringStore.mk "/usr/bin/wkhtmltoimage".
Proof. split; reflexivity. Qed.

Lemma GenerateImage_explicit_path_witness :
  store_of
    (GenerateImage (Sample.system Sample.installed_on_path)
       Sample.codec Sample.codec
       (mkImageOptions "/opt/wk/wkhtmltoimage" "page.html" "" 0 0 0 "" "")
       (stringStore.mk ""))
  = store_of (findPath (Sample.system Sample.installed_on_path)
                       (stringStore.mk "")) /\
  exists err,
    events_of
      (GenerateImage (Sample.system Sample.installed_on_path)
         Sample.codec Sample.codec
         (mkImageOptions "/opt/wk/wkhtmltoimage" "page.html" "" 0 0 0 "" "")
         (stringStore.mk ""))
    = events_of (findPath (Sample.system Sample.installed_on_path)
                          (stringStore.mk ""))
      ++ EvRun "/opt/wk/wkhtmltoimage"
           (args_of
              (mkImageOptions "/opt/wk/wkhtmltoimage" "page.html" "" 0 0 0 "" ""))
           (stdin_of
              (options_after
                 (mkImageOptions "/opt/wk/wkhtmltoimage" "page.html" "" 0 0 0
                                 "" "")))
      :: println_events err.
Proof.
  apply (GenerateImage_explicit_path (Sample.system Sample.installed_on_path)
           Sample.codec Sample.codec
           (mkImageOptions "/opt/wk/wkhtmltoimage" "page.html" "" 0 0 0 "" "")
           (stringStore.mk ""));
    discriminate.
Defined.

(** The claim of C3 fails as stated: with nothing to find the error is
    "BinaryPath not set", which does not say "not found"; and with a path
    already cached the same system yields no error at all, the cached path
    is spawned. *)
Lemma no_binary_error_text :
  result_of
    (GenerateImage (Sample.system Sample.bare) Sample.codec Sample.codec
       (mkImageOptions "" "page.html" "" 0 0 0 "" "") (stringStore.mk ""))
  = Ret (mkImageOptions "" "page.html" "" 0 0 0 "" "",
         (make_slice [], Some "BinaryPath not set")) /\
  mentions "not found" "BinaryPath not set" = false /\
  adjacent_fails (Sample.system Sample.bare) = true /\
  search_path_fails (Sample.system Sample.bare) = true /\
  env_dir_fails (Sample.system Sample.bare) = true /\
  result_of
    (GenerateImage (Sample.system Sample.bare) Sample.codec Sample.codec
       (mkImageOptions "" "page.html" "" 0 0 0 "" "")
       (stringStore.mk "/cached/wkhtmltoimage"))
  = Ret (mkImageOptions "/cached/wkhtmltoimage" "page.html" "" 0 0 0 "" "",
         (make_slice [x6f; x6b], None)).
Proof. repeat split. Qed.

Lemma GenerateImage_no_binary_witness :
  result_of
    (GenerateImage (Sample.system Sample.bare) Sample.codec Sample.codec
       (mkImageOptions "" "page.html" "jpg" 0 0 0 "" "") (stringStore.mk ""))
  = Ret (set_BinaryPath
           (options_after (mkImageOptions "" "page.html" "jpg" 0 0 0 "" "")) "",
         (make_slice [], Some "BinaryPath not set")) /\
  store_of
    (GenerateImage (Sample.system Sample.bare) Sample.codec Sample.codec
       (mkImageOptions "" "page.html" "jpg" 0 0 0 "" "") (stringStore.mk ""))
  = stringStore.mk "" /\
  existsb is_run
    (events_of
       (GenerateImage (Sample.system Sample.bare) Sample.codec Sample.codec
          (mkImageOptions "" "page.html" "jpg" 0 0 0 "" "")
          (stringStore.mk "")))
  = false.
Proof.
  apply (GenerateImage_no_binary (Sample.system Sample.bare)
           Sample.codec Sample.codec
           (mkImageOptions "" "page.html" "jpg" 0 0 0 "" "")
           (stringStore.mk ""));
    first [discriminate | reflexivity].
Defined.

Lemma GenerateImage_no_stdin_witness :
  Html (options_after
          (mkImageOptions "" "page.html" "" 0 0 0 "<p>hello</p>" "")) = "" /\
  forall name args stdin,
    In (EvRun name args stdin)
       (events_of
          (GenerateImage (Sample.system Sample.installed_on_path)
             Sample.codec Sample.codec
             (mkImageOptions "" "page.html" "" 0 0 0 "<p>hello</p>" "")
             (stringStore.mk ""))) ->
    stdin = None.
Proof.
  apply (GenerateImage_no_stdin (Sample.system Sample.installed_on_path)
           Sample.codec Sample.codec
           (mkImageOptions "" "page.html" "" 0 0 0 "<p>hello</p>" "")
           (stringStore.mk ""));
    discriminate.
Defined.

(** With the input "-" the HTML does reach the process. *)
Example GenerateImage_stdin_piped :
  events_of
    (GenerateImage (Sample.system Sample.installed_on_path)
       Sample.codec Sample.codec
       (mkImageOptions "" "-" "" 0 0 0 "<p>hello</p>" "")
       (stringStore.mk "/usr/bin/wkhtmltoimage"))
  = [EvGet; EvGet;
     EvRun "/usr/bin/wkhtmltoimage"
       ["-q"; "--disable-plugins"; "--format"; "png"; "-"; "-"]
       (Some "<p>hello</p>")].
Proof. reflexivity. Qed.

Lemma cleanupOutput_unset_format_witness :
  cleanupOutput Sample.codec Sample.codec (make_slice [x6f; x6b])
    (Format (options_after (mkImageOptions "" "a.html" "" 0 0 0 "" "")))
  = Ret (make_slice [x6f; x6b]) /\
  following "--format"
    (args_of (mkImageOptions "" "a.html" "" 0 0 0 "" "")) = Some "png" /\
  forall format,
    format <> "png" -> format <> "jpg" ->
    cleanupOutput Sample.codec Sample.codec (make_slice [x6f; x6b]) format
    = Ret (make_slice [x6f; x6b]).
Proof.
  apply (cleanupOutput_unset_format Sample.codec Sample.codec
           (mkImageOptions "" "a.html" "" 0 0 0 "" "")
           (make_slice [x6f; x6b]));
    first [discriminate | reflexivity].
Defined.

Lemma ImageFromJSON_no_pages_witness :
  ImageFromJSON (Sample.system Sample.bare) Sample.codec Sample.codec
    [x7b; x7d] (stringStore.mk "")
  = (Ret (nil_slice, None), stringStore.mk "", []).
Proof.
  apply (ImageFromJSON_no_pages (Sample.system Sample.bare)
           Sample.codec Sample.codec [x7b; x7d] (mkJsonPDFGenerator [])
           (stringStore.mk ""));
    reflexivity.
Defined.

Lemma repair_strips_noise_witness :
  repair Sample.codec
    (make_slice ([x57; x3a] ++ [x89; x50; x4e; x47; x2a]))
  = Ret (Encode Sample.codec [x2a]).
Proof.
  apply (repair_strips_noise Sample.codec [x57; x3a]
           [x89; x50; x4e; x47; x2a] [x2a]).
  - intros [|[|k]] Hk; [reflexivity | reflexivity | cbn in Hk; lia].
  - reflexivity.
  - discriminate.
Defined.

Lemma findPath_cached_witness :
  findPath (Sample.system Sample.installed_on_path)
           (stringStore.mk "/opt/wk/wkhtmltoimage")
  = (Ret None, stringStore.mk "/opt/wk/wkhtmltoimage", [EvGet]).
Proof.
  apply (findPath_cached (Sample.system Sample.installed_on_path)
           (stringStore.mk "/opt/wk/wkhtmltoimage")).
  discriminate.
Defined.

(** ** More on discovery *)

Lemma found_path (path : string) : path <> "" -> found (path, None) = true.
Proof. intros H. cbn [found]. rewrite (is_empty_false _ H). reflexivity. Qed.

Lemma found_nonempty (r : string * option error) :
  found r = true -> fst r <> "".
Proof.
  destruct r as [path [e|]]; cbn [found fst]; [discriminate|].
  destruct path; [discriminate | discriminate].
Qed.

Section DiscoveryFacts.

Variable os : OS.

Ltac discovery_steps :=
  unfold findPath, GetWKHTMLToImagePath, binImagePath_Get, binImagePath_Set,
    Abs, LookPath, Getenv, emit, ret, bind,
    stringStore.Get, stringStore.Set_;
  cbn [fst snd app].

Lemma findPath_reads_cache (st : stringStore.t) :
  is_empty (stringStore.Get st) = false ->
  findPath os st = (Ret None, st, [EvGet]).
Proof.
  intros H. discovery_steps. unfold stringStore.Get in H. rewrite H.
  reflexivity.
Qed.

(** With an empty cache, a binary next to the running program is taken:
    its path is stored, and neither the search path nor the environment
    variable is consulted. *)
Theorem findPath_adjacent_hit (st : stringStore.t) (exeDir path : string) :
  stringStore.Get st = "" ->
  filepath_Abs os (filepath_Dir os (os_Args0 os)) = (exeDir, None) ->
  exec_LookPath os (filepath_Join os exeDir exe) = (path, None) ->
  path <> "" ->
  findPath os st =
  (Ret None, stringStore.mk path,
   [EvGet; EvAbs (filepath_Dir os (os_Args0 os));
    EvLookPath (filepath_Join os exeDir exe); EvSet path]).
Proof.
  intros Hc Habs Hlook Hpath. discovery_steps.
  unfold stringStore.Get in Hc. rewrite Hc, Habs, Hlook.
  cbn [is_empty negb fst]. rewrite (found_path _ Hpath). reflexivity.
Qed.

(** With an empty cache and nothing next to the running program, a binary
    on the search path is taken and stored; the environment variable is not
    read. *)
Theorem findPath_search_path_hit (st : stringStore.t) (exeDir path : string) :
  stringStore.Get st = "" ->
  filepath_Abs os (filepath_Dir os (os_Args0 os)) = (exeDir, None) ->
  found (exec_LookPath os (filepath_Join os exeDir exe)) = false ->
  exec_LookPath os exe = (path, None) ->
  path <> "" ->
  findPath os st =
  (Ret None, stringStore.mk path,
   [EvGet; EvAbs (filepath_Dir os (os_Args0 os));
    EvLookPath (filepath_Join os exeDir exe); EvLookPath exe; EvSet path]).
Proof.
  intros Hc Habs Hadj Hlook Hpath. discovery_steps.
  unfold stringStore.Get in Hc. rewrite Hc, Habs.
  cbn [is_empty negb fst]. rewrite Hadj, Hlook.
  cbn [fst]. rewrite (found_path _ Hpath). reflexivity.
Qed.

(** With an empty cache and the first two steps failing, the directory
    named by [WKHTMLTOIMAGE_PATH] is searched last, and a binary found
    there is stored. *)
Theorem findPath_env_dir_hit (st : stringStore.t) (exeDir path : string) :
  stringStore.Get st = "" ->
  filepath_Abs os (filepath_Dir os (os_Args0 os)) = (exeDir, None) ->
  found (exec_LookPath os (filepath_Join os exeDir exe)) = false ->
  found (exec_LookPath os exe) = false ->
  os_Getenv os "WKHTMLTOIMAGE_PATH" <> "" ->
  exec_LookPath os
    (filepath_Join os (os_Getenv os "WKHTMLTOIMAGE_PATH") exe) = (path, None) ->
  path <> "" ->
  findPath os st =
  (Ret None, stringStore.mk path,
   [EvGet; EvAbs (filepath_Dir os (os_Args0 os));
    EvLookPath (filepath_Join os exeDir exe); EvLookPath exe;
    EvGetenv "WKHTMLTOIMAGE_PATH";
    EvLookPath (filepath_Join os (os_Getenv os "WKHTMLTOIMAGE_PATH") exe);
    EvSet path]).
Proof.
  intros Hc Habs Hadj Hsys Henv Hlook Hpath. discovery_steps.
  unfold stringStore.Get in Hc. rewrite Hc, Habs.
  cbn [is_empty negb fst]. rewrite Hadj, Hsys, (is_empty_false _ Henv), Hlook.
  cbn [fst]. rewrite (found_path _ Hpath). reflexivity.
Qed.


(** Every way [findPath] can end: without panic, with the nil error exactly
    when the cache then holds a path, and with the cache as it was when
    that cache was already filled or an error is returned. *)
Lemma findPath_outcome (st : stringStore.t) :
  exists e st1 t1,
    findPath os st = (Ret e, st1, t1) /\
    (e = None <-> stringStore.Get st1 <> "") /\
    (e <> None -> st1 = st) /\
    (stringStore.Get st <> "" -> st1 = st).
Proof.
  destruct (is_empty (stringStore.Get st)) eqn:Hc.
  - apply is_empty_true in Hc. discovery_steps.
    unfold stringStore.Get in Hc. rewrite Hc. cbn [is_empty negb].
    destruct (filepath_Abs os (filepath_Dir os (os_Args0 os))) as [exeDir [e|]].
    + do 3 eexists. split; [reflexivity|].
      unfold stringStore.Get. rewrite Hc.
      repeat split; try congruence; intros; congruence.
    + destruct (found (exec_LookPath os (filepath_Join os exeDir exe))) eqn:F1.
      { do 3 eexists. split; [reflexivity|]. cbn [stringStore.Get stringStore.val].
        pose proof (found_nonempty _ F1).
        repeat split; try congruence; intros; congruence. }
      destruct (found (exec_LookPath os exe)) eqn:F2.
      { do 3 eexists. split; [reflexivity|]. cbn [stringStore.Get stringStore.val].
        pose proof (found_nonempty _ F2).
        repeat split; try congruence; intros; congruence. }
      destruct (is_empty (os_Getenv os "WKHTMLTOIMAGE_PATH")).
      { do 3 eexists. split; [reflexivity|].
        unfold stringStore.Get. rewrite Hc.
        repeat split; try congruence; intros; congruence. }
      destruct (found (exec_LookPath os
                  (filepath_Join os (os_Getenv os "WKHTMLTOIMAGE_PATH") exe)))
               eqn:F3.
      { do 3 eexists. split; [reflexivity|]. cbn [stringStore.Get stringStore.val].
        pose proof (found_nonempty _ F3).
        repeat split; try congruence; intros; congruence. }
      do 3 eexists. split; [reflexivity|].
      unfold stringStore.Get. rewrite Hc.
      repeat split; try congruence; intros; congruence.
  - rewrite (findPath_reads_cache st Hc). do 3 eexists. split; [reflexivity|].
    assert (stringStore.Get st <> "") by (intros E; rewrite E in Hc; discriminate).
    repeat split; try congruence; intros; congruence.
Qed.

(** [findPath] returns the nil error exactly when the cache holds a path
    afterwards. *)
Theorem findPath_nil_iff_resolved (st : stringStore.t) :
  result_of (findPath os st) = Ret None <->
  stringStore.Get (store_of (findPath os st)) <> "".
Proof.
  destruct (findPath_outcome st) as (e & st1 & t1 & Hf & Hiff & _).
  rewrite Hf. unfold result_of, store_of. cbn [fst snd].
  rewrite <- Hiff. split; [intros H; injection H; auto | intros ->; reflexivity].
Qed.

(** Resolve once, reuse: after a [findPath] that returned the nil error, a
    second [findPath] only reads the cache and changes nothing. *)
Theorem findPath_twice (st : stringStore.t) :
  result_of (findPath os st) = Ret None ->
  findPath os (store_of (findPath os st))
  = (Ret None, store_of (findPath os st), [EvGet]).
Proof.
  intros H. apply findPath_reads_cache.
  destruct (findPath_outcome st) as (e & st1 & t1 & Hf & Hiff & _).
  rewrite Hf in *. unfold result_of, store_of in *. cbn [fst snd] in *.
  apply is_empty_false. apply Hiff. congruence.
Qed.

(** A failing [findPath] leaves the cache as it found it. *)
Theorem findPath_error_keeps_cache (st : stringStore.t) (e : error) :
  result_of (findPath os st) = Ret (Some e) ->
  store_of (findPath os st) = st.
Proof.
  intros H.
  destruct (findPath_outcome st) as (e' & st1 & t1 & Hf & _ & Hkeep & _).
  rewrite Hf in *. unfold result_of, store_of in *. cbn [fst snd] in *.
  apply Hkeep. congruence.
Qed.

End DiscoveryFacts.

(** ** More on the translator *)

(** The translator rejects a record exactly when its input is empty: no
    other field, whatever it holds, makes it fail. *)
Theorem buildParams_fails_iff (o : ImageOptions) :
  err_of o <> None <-> Input o = "".
Proof.
  unfold err_of, buildParams. destruct (Input o) as [|c s]; cbn [is_empty snd].
  - split; [reflexivity | discriminate].
  - cbv zeta. cbn [snd]. split; [congruence | discriminate].
Qed.

(** Translating again the record the translator left behind changes
    nothing: same record, same argument list, same error. *)
Theorem buildParams_idempotent (o : ImageOptions) :
  buildParams (options_after o) = buildParams o.
Proof.
  destruct (is_empty (Input o)) eqn:Hin.
  - unfold options_after, buildParams. rewrite Hin. cbn [fst].
    rewrite Hin. reflexivity.
  - assert (Hne : Input o <> "") by (intros E; rewrite E in Hin; discriminate).
    rewrite options_after_valid by assumption.
    destruct (String.eqb (Input o) "-") eqn:Hdash; [reflexivity|].
    rewrite (buildParams_valid o Hne), Hdash.
    rewrite (buildParams_valid (set_Html o "")) by exact Hne.
    cbn [Input set_Html]. rewrite Hdash. reflexivity.
Qed.

(** ** More on invocation *)

Lemma filter_no_run (t : list Event) :
  existsb is_run t = false -> filter is_run t = [].
Proof.
  induction t as [|ev t IH]; [reflexivity|]. cbn [existsb filter].
  destruct (is_run ev); [discriminate|]. exact IH.
Qed.

Section InvocationFacts.

Variable os : OS.
Context {Image : Type}.
Variables png jpeg : Codec Image.

(** An empty input is refused before anything else happens: nothing is
    looked up, nothing is started, the cache and the record are untouched,
    and the bytes returned are the empty, non-nil slice. *)
Theorem GenerateImage_invalid_input (o : ImageOptions) (st : stringStore.t) :
  Input o = "" ->
  GenerateImage os png jpeg o st
  = (Ret (o, (make_slice [], Some "Must provide input")), st, []).
Proof.
  intros H. unfold GenerateImage, buildParams. rewrite H. reflexivity.
Qed.

(** One call starts at most one process: nothing is retried. *)
Theorem GenerateImage_at_most_one_run (o : ImageOptions) (st : stringStore.t) :
  (length (filter is_run (events_of (GenerateImage os png jpeg o st))) <= 1)%nat.
Proof.
  destruct (is_empty (Input o)) eqn:Hin.
  - unfold GenerateImage, buildParams. rewrite Hin. cbn. lia.
  - assert (Hne : Input o <> "") by (intros E; rewrite E in Hin; discriminate).
    destruct (findPath_quiet os st) as (e & st1 & t1 & Hfind & Hquiet).
    pose proof (filter_no_run _ Hquiet) as Ht1.
    destruct (is_empty (BinaryPath o)) eqn:Hb.
    + apply is_empty_true in Hb.
      rewrite (GenerateImage_discovered os png jpeg o st st1 e t1 Hne Hb Hfind).
      destruct (is_empty (stringStore.Get st1)); unfold events_of; cbn [snd];
        rewrite filter_app, Ht1; cbn [app filter is_run length]; [lia|].
      rewrite (filter_no_run _ (no_run_in_println _)). cbn. lia.
    + assert (Hb' : BinaryPath o <> "")
        by (intros E; rewrite E in Hb; discriminate).
      rewrite (GenerateImage_explicit os png jpeg o st st1 e t1 Hne Hb' Hfind).
      unfold events_of. cbn [snd].
      rewrite filter_app, Ht1. cbn [app filter is_run length].
      rewrite (filter_no_run _ (no_run_in_println _)). cbn. lia.
Qed.

(** With no explicit path and a path in the cache, the cached path is
    spawned without any lookup, the cache is left alone, and the caller's
    record comes back with [BinaryPath] set to the cached path. *)
Theorem GenerateImage_uses_cache (o : ImageOptions) (st : stringStore.t) :
  Input o <> "" ->
  BinaryPath o = "" ->
  stringStore.Get st <> "" ->
  GenerateImage os png jpeg o st =
  (match cleanupOutput png jpeg
           (fst (cmd_CombinedOutput os (stringStore.Get st) (args_of o)
                                    (stdin_of (options_after o))))
           (Format o) with
   | Ret trimmed =>
       Ret (set_BinaryPath (options_after o) (stringStore.Get st),
            (trimmed,
             snd (cmd_CombinedOutput os (stringStore.Get st) (args_of o)
                                     (stdin_of (options_after o)))))
   | Panic p => Panic p
   end,
   st,
   EvGet :: EvGet
     :: EvRun (stringStore.Get st) (args_of o) (stdin_of (options_after o))
     :: println_events
          (snd (cmd_CombinedOutput os (stringStore.Get st) (args_of o)
                                   (stdin_of (options_after o))))).
Proof.
  intros Hin Hb Hc.
  pose proof (findPath_reads_cache os st (is_empty_false _ Hc)) as Hfind.
  rewrite (GenerateImage_discovered os png jpeg o st st None [EvGet] Hin Hb Hfind).
  rewrite (is_empty_false _ Hc). reflexivity.
Qed.


(** With the input "-" and a non-empty [Html], the translator keeps the
    HTML, and every process the call starts receives exactly that text on
    its standard input. *)
Theorem GenerateImage_pipes_html (o : ImageOptions) (st : stringStore.t) :
  Input o = "-" ->
  Html o <> "" ->
  Html (options_after o) = Html o /\
  forall name args stdin,
    In (EvRun name args stdin) (events_of (GenerateImage os png jpeg o st)) ->
    stdin = Some (Html o).
Proof.
  intros Hdash Hhtml.
  assert (Hin : Input o <> "") by (rewrite Hdash; discriminate).
  assert (Hkeep : options_after o = o).
  { rewrite options_after_valid by assumption. rewrite Hdash. reflexivity. }
  assert (Hstdin : stdin_of (options_after o) = Some (Html o)).
  { rewrite Hkeep. unfold stdin_of. rewrite (is_empty_false _ Hhtml).
    reflexivity. }
  split; [rewrite Hkeep; reflexivity|]. intros name args stdin Hev.
  destruct (findPath_quiet os st) as (e & st1 & t1 & Hfind & Hquiet).
  destruct (is_empty (BinaryPath o)) eqn:Hb.
  - apply is_empty_true in Hb.
    rewrite (GenerateImage_discovered os png jpeg o st st1 e t1 Hin Hb Hfind)
      in Hev.
    destruct (is_empty (stringStore.Get st1));
      unfold events_of in Hev; cbn [snd] in Hev;
      apply in_app_or in Hev; destruct Hev as [Hev|Hev];
      try (exfalso; exact (no_run_in _ _ _ _ Hquiet Hev)).
    + destruct Hev as [Hev|[]]. discriminate.
    + destruct Hev as [Hev|[Hev|Hev]]; [discriminate | |].
      * injection Hev as _ _ Hs. congruence.
      * exfalso. exact (no_run_in _ _ _ _ (no_run_in_println _) Hev).
  - assert (Hb' : BinaryPath o <> "")
      by (intros E; rewrite E in Hb; discriminate).
    rewrite (GenerateImage_explicit os png jpeg o st st1 e t1 Hin Hb' Hfind)
      in Hev.
    unfold events_of in Hev. cbn [snd] in Hev.
    apply in_app_or in Hev. destruct Hev as [Hev|[Hev|Hev]].
    + exfalso. exact (no_run_in _ _ _ _ Hquiet Hev).
    + injection Hev as _ _ Hs. congruence.
    + exfalso. exact (no_run_in _ _ _ _ (no_run_in_println _) Hev).
Qed.

End InvocationFacts.

(** ** More on the page-list adapter *)

Section AdapterFacts.

Variable os : OS.
Context {Image : Type}.
Variables png jpeg : Codec Image.

(** A document that does not decode gives the nil slice and an error that
    wraps the decoder's; nothing is looked up or started. *)
Theorem ImageFromJSON_bad_json (jsonReader : list byte)
        (jp : jsonPDFGenerator) (e : error) (st : stringStore.t) :
  json_Decode os jsonReader = (jp, Some e) ->
  ImageFromJSON os png jpeg jsonReader st
  = (Ret (nil_slice, Some ("error unmarshaling JSON: " ++ e)%string), st, []).
Proof. intros H. unfold ImageFromJSON. rewrite H. reflexivity. Qed.

(** A first page whose base64 data does not decode gives the nil slice and
    an error naming page 0, whatever the page's input file is; nothing is
    looked up or started. *)
Theorem ImageFromJSON_bad_base64 (jsonReader : list byte)
        (jp : jsonPDFGenerator) (p : jsonPage) (rest : list jsonPage)
        (buf : bytes) (e : error) (st : stringStore.t) :
  json_Decode os jsonReader = (jp, None) ->
  Pages jp = p :: rest ->
  Base64PageData p <> "" ->
  base64_DecodeString os (Base64PageData p) = (buf, Some e) ->
  ImageFromJSON os png jpeg jsonReader st
  = (Ret (nil_slice,
          Some ("error decoding base 64 input on page 0: " ++ e)%string),
     st, []).
Proof.
  intros Hdec Hpages Hdata Hb64. unfold ImageFromJSON.
  rewrite Hdec, Hpages, (is_empty_false _ Hdata), Hb64. reflexivity.
Qed.

(** Only the first page counts: two documents that decode to page lists
    with the same first page (or both with none) give the same result. *)
Theorem ImageFromJSON_first_page_only (r1 r2 : list byte)
        (jp1 jp2 : jsonPDFGenerator) (st : stringStore.t) :
  json_Decode os r1 = (jp1, None) ->
  json_Decode os r2 = (jp2, None) ->
  hd_error (Pages jp1) = hd_error (Pages jp2) ->
  ImageFromJSON os png jpeg r1 st = ImageFromJSON os png jpeg r2 st.
Proof.
  intros H1 H2 Hhd. unfold ImageFromJSON. rewrite H1, H2.
  destruct (Pages jp1) as [|p1 l1], (Pages jp2) as [|p2 l2];
    cbn [hd_error] in Hhd; try discriminate; [reflexivity|].
  injection Hhd as ->. reflexivity.
Qed.

(** A first page with neither base64 data nor an input file is refused by
    the translator: the result is the empty, non-nil slice with "Must
    provide input", and nothing is looked up or started. *)
Theorem ImageFromJSON_blank_page (jsonReader : list byte)
        (jp : jsonPDFGenerator) (p : jsonPage) (rest : list jsonPage)
        (st : stringStore.t) :
  json_Decode os jsonReader = (jp, None) ->
  Pages jp = p :: rest ->
  Base64PageData p = "" ->
  InputFile p = "" ->
  ImageFromJSON os png jpeg jsonReader st
  = (Ret (make_slice [], Some "Must provide input"), st, []).
Proof.
  intros Hdec Hpages Hdata Hfile. unfold ImageFromJSON.
  rewrite Hdec, Hpages, Hdata, Hfile. reflexivity.
Qed.

(** A first page with base64 data that decodes to non-empty HTML, with a
    path in the cache: the cached binary is run once with the default
    format, input "-" and output "-", the HTML on its standard input, and
    its captured bytes and error are returned as they are. *)
Theorem ImageFromJSON_html_page (jsonReader : list byte)
        (jp : jsonPDFGenerator) (p : jsonPage) (rest : list jsonPage)
        (buf : bytes) (st : stringStore.t) :
  json_Decode os jsonReader = (jp, None) ->
  Pages jp = p :: rest ->
  Base64PageData p <> "" ->
  base64_DecodeString os (Base64PageData p) = (buf, None) ->
  string_of_list_byte (elems buf) <> "" ->
  stringStore.Get st <> "" ->
  ImageFromJSON os png jpeg jsonReader st =
  (Ret (cmd_CombinedOutput os (stringStore.Get st)
          ["-q"; "--disable-plugins"; "--format"; "png"; "-"; "-"]
          (Some (string_of_list_byte (elems buf)))),
   st,
   EvGet :: EvGet
     :: EvRun (stringStore.Get st)
          ["-q"; "--disable-plugins"; "--format"; "png"; "-"; "-"]
          (Some (string_of_list_byte (elems buf)))
     :: println_events
          (snd (cmd_CombinedOutput os (stringStore.Get st)
                  ["-q"; "--disable-plugins"; "--format"; "png"; "-"; "-"]
                  (Some (string_of_list_byte (elems buf)))))).
Proof.
  intros Hdec Hpages Hdata Hb64 Hhtml Hc. unfold ImageFromJSON.
  rewrite Hdec, Hpages, (is_empty_false _ Hdata), Hb64.
  pose proof (findPath_reads_cache os st (is_empty_false _ Hc)) as Hfind.
  unfold bind at 1.
  rewrite (GenerateImage_discovered os png jpeg
             (options_of_html (string_of_list_byte (elems buf)))
             st st None [EvGet]);
    [| discriminate | reflexivity | exact Hfind].
  rewrite (is_empty_false _ Hc).
  change (args_of (options_of_html (string_of_list_byte (elems buf))))
    with ["-q"; "--disable-plugins"; "--format"; "png"; "-"; "-"].
  change (options_after (options_of_html (string_of_list_byte (elems buf))))
    with (options_of_html (string_of_list_byte (elems buf))).
  unfold stdin_of. cbn [Html options_of_html Format].
  rewrite (is_empty_false _ Hhtml).
  cbn [cleanupOutput String.eqb Ascii.eqb].
  destruct (cmd_CombinedOutput os (stringStore.Get st)
              ["-q"; "--disable-plugins"; "--format"; "png"; "-"; "-"]
              (Some (string_of_list_byte (elems buf)))) as [output err].
  unfold ret. cbn [fst snd app]. rewrite app_nil_r. reflexivity.
Qed.

End AdapterFacts.

(** ** More on output repair *)

Section RepairMore.

Context {Image : Type}.
Variables png jpeg : Codec Image.

Lemma repair_returns_encoding (c : Codec Image) (img out : bytes) :
  repair c img = Ret out -> exists m, out = Encode c m.
Proof.
  unfold repair. destruct (trim_loop c (elems img)) as [[m|]|p];
    cbn [reencode]; try discriminate.
  intros H. injection H as <-. exists m. reflexivity.
Qed.

Lemma repair_of_encoding (c : Codec Image) (m : Image) :
  Decode c (elems (Encode c m)) = Some m ->
  repair c (Encode c m) = Ret (Encode c m).
Proof.
  intros H. unfold repair.
  destruct (elems (Encode c m)) as [|b l] eqn:E; cbn [trim_loop];
    rewrite H; reflexivity.
Qed.

(** Cleaning up twice is cleaning up once: for every format but "jpg",
    when the PNG decoder reads back what the PNG encoder writes, a result
    of [cleanupOutput] is left unchanged by another pass. *)
Theorem cleanupOutput_idempotent (img out : bytes) (format : string) :
  format <> "jpg" ->
  (forall m, Decode png (elems (Encode png m)) = Some m) ->
  cleanupOutput png jpeg img format = Ret out ->
  cleanupOutput png jpeg out format = Ret out.
Proof.
  intros Hj Hround. unfold cleanupOutput.
  destruct (String.eqb format "png").
  - intros H. destruct (repair_returns_encoding png img out H) as [m ->].
    apply repair_of_encoding, Hround.
  - apply String.eqb_neq in Hj. rewrite Hj. intros _. reflexivity.
Qed.

End RepairMore.

(** ** More concrete runs *)

Lemma findPath_adjacent_hit_witness :
  findPath (Sample.system Fixtures.next_to_program) (stringStore.mk "")
  = (Ret None, stringStore.mk "/srv/app/wkhtmltoimage",
     [EvGet; EvAbs "/srv/app"; EvLookPath "/srv/app/wkhtmltoimage";
      EvSet "/srv/app/wkhtmltoimage"]).
Proof.
  exact (findPath_adjacent_hit (Sample.system Fixtures.next_to_program)
           (stringStore.mk "") "/srv/app" "/srv/app/wkhtmltoimage"
           eq_refl eq_refl eq_refl ltac:(discriminate)).
Defined.

Lemma findPath_search_path_hit_witness :
  findPath (Sample.system Sample.installed_on_path) (stringStore.mk "")
  = (Ret None, stringStore.mk "/usr/bin/wkhtmltoimage",
     [EvGet; EvAbs "/srv/app"; EvLookPath "/srv/app/wkhtmltoimage";
      EvLookPath "wkhtmltoimage"; EvSet "/usr/bin/wkhtmltoimage"]).
Proof.
  exact (findPath_search_path_hit (Sample.system Sample.installed_on_path)
           (stringStore.mk "") "/srv/app" "/usr/bin/wkhtmltoimage"
           eq_refl eq_refl eq_refl eq_refl ltac:(discriminate)).
Defined.

Lemma findPath_env_dir_hit_witness :
  findPath (Sample.system Fixtures.in_env_dir) (stringStore.mk "")
  = (Ret None, stringStore.mk "/opt/wk/wkhtmltoimage",
     [EvGet; EvAbs "/srv/app"; EvLookPath "/srv/app/wkhtmltoimage";
      EvLookPath "wkhtmltoimage"; EvGetenv "WKHTMLTOIMAGE_PATH";
      EvLookPath "/opt/wk/wkhtmltoimage"; EvSet "/opt/wk/wkhtmltoimage"]).
Proof.
  exact (findPath_env_dir_hit (Sample.system Fixtures.in_env_dir)
           (stringStore.mk "") "/srv/app" "/opt/wk/wkhtmltoimage"
           eq_refl eq_refl eq_refl eq_refl ltac:(discriminate) eq_refl
           ltac:(discriminate)).
Defined.


Lemma findPath_twice_witness :
  findPath (Sample.system Sample.installed_on_path)
    (store_of (findPath (Sample.system Sample.installed_on_path)
                        (stringStore.mk "")))
  = (Ret None,
     store_of (findPath (Sample.system Sample.installed_on_path)
                        (stringStore.mk "")),
     [EvGet]).
Proof.
  exact (findPath_twice (Sample.system Sample.installed_on_path)
           (stringStore.mk "") eq_refl).
Defined.

Lemma findPath_error_keeps_cache_witness :
  store_of (findPath (Sample.system Sample.bare) (stringStore.mk ""))
  = stringStore.mk "".
Proof.
  exact (findPath_error_keeps_cache (Sample.system Sample.bare)
           (stringStore.mk "") "wkhtmltoimage not found" eq_refl).
Defined.

Lemma GenerateImage_invalid_input_witness :
  GenerateImage (Sample.system Sample.installed_on_path)
    Sample.codec Sample.codec
    (mkImageOptions "/opt/wk/wkhtmltoimage" "" "png" 600 0 0 "<p>hi</p>" "")
    (stringStore.mk "")
  = (Ret (mkImageOptions "/opt/wk/wkhtmltoimage" "" "png" 600 0 0
                         "<p>hi</p>" "",
          (make_slice [], Some "Must provide input")),
     stringStore.mk "", []).
Proof.
  exact (GenerateImage_invalid_input (Sample.system Sample.installed_on_path)
           Sample.codec Sample.codec
           (mkImageOptions "/opt/wk/wkhtmltoimage" "" "png" 600 0 0
                           "<p>hi</p>" "")
           (stringStore.mk "") eq_refl).
Defined.

Lemma GenerateImage_uses_cache_witness :
  GenerateImage (Sample.system Sample.bare) Sample.codec Sample.codec
    (mkImageOptions "" "page.html" "bmp" 0 0 0 "" "")
    (stringStore.mk "/cached/wkhtmltoimage")
  = (Ret (mkImageOptions "/cached/wkhtmltoimage" "page.html" "bmp" 0 0 0 "" "",
          (make_slice [x6f; x6b], None)),
     stringStore.mk "/cached/wkhtmltoimage",
     [EvGet; EvGet;
      EvRun "/cached/wkhtmltoimage"
        ["-q"; "--disable-plugins"; "--format"; "bmp"; "page.html"; "-"]
        None]).
Proof.
  exact (GenerateImage_uses_cache (Sample.system Sample.bare)
           Sample.codec Sample.codec
           (mkImageOptions "" "page.html" "bmp" 0 0 0 "" "")
           (stringStore.mk "/cached/wkhtmltoimage")
           ltac:(discriminate) eq_refl ltac:(discriminate)).
Defined.


Lemma GenerateImage_pipes_html_witness :
  Html (options_after (mkImageOptions "" "-" "" 0 0 0 "<p>hi</p>" ""))
  = "<p>hi</p>" /\
  forall name args stdin,
    In (EvRun name args stdin)
       (events_of
          (GenerateImage (Sample.system Sample.installed_on_path)
             Sample.codec Sample.codec
             (mkImageOptions "" "-" "" 0 0 0 "<p>hi</p>" "")
             (stringStore.mk ""))) ->
    stdin = Some "<p>hi</p>".
Proof.
  exact (GenerateImage_pipes_html (Sample.system Sample.installed_on_path)
           Sample.codec Sample.codec
           (mkImageOptions "" "-" "" 0 0 0 "<p>hi</p>" "")
           (stringStore.mk "") eq_refl ltac:(discriminate)).
Defined.

Lemma ImageFromJSON_bad_json_witness :
  ImageFromJSON (Sample.system Fixtures.with_pages) Sample.codec Sample.codec
    [x7b] (stringStore.mk "")
  = (Ret (nil_slice,
          Some "error unmarshaling JSON: unexpected end of JSON input"),
     stringStore.mk "", []).
Proof.
  exact (ImageFromJSON_bad_json (Sample.system Fixtures.with_pages)
           Sample.codec Sample.codec [x7b] (mkJsonPDFGenerator [])
           "unexpected end of JSON input" (stringStore.mk "") eq_refl).
Defined.

Lemma ImageFromJSON_bad_base64_witness :
  ImageFromJSON (Sample.system Fixtures.with_pages) Sample.codec Sample.codec
    (list_byte_of_string "bad64") (stringStore.mk "")
  = (Ret (nil_slice,
          Some "error decoding base 64 input on page 0: illegal base64 data at input byte 0"),
     stringStore.mk "", []).
Proof.
  exact (ImageFromJSON_bad_base64 (Sample.system Fixtures.with_pages)
           Sample.codec Sample.codec (list_byte_of_string "bad64")
           (mkJsonPDFGenerator [mkJsonPage "a.html" "%%%"])
           (mkJsonPage "a.html" "%%%") [] nil_slice
           "illegal base64 data at input byte 0" (stringStore.mk "")
           eq_refl eq_refl ltac:(discriminate) eq_refl).
Defined.

Lemma ImageFromJSON_first_page_only_witness :
  ImageFromJSON (Sample.system Fixtures.with_pages) Sample.codec Sample.codec
    (list_byte_of_string "one") (stringStore.mk "")
  = ImageFromJSON (Sample.system Fixtures.with_pages) Sample.codec Sample.codec
      (list_byte_of_string "two") (stringStore.mk "").
Proof.
  exact (ImageFromJSON_first_page_only (Sample.system Fixtures.with_pages)
           Sample.codec Sample.codec
           (list_byte_of_string "one") (list_byte_of_string "two")
           (mkJsonPDFGenerator [mkJsonPage "a.html" ""])
           (mkJsonPDFGenerator [mkJsonPage "a.html" ""; mkJsonPage "b.html" ""])
           (stringStore.mk "") eq_refl eq_refl eq_refl).
Defined.

Lemma ImageFromJSON_blank_page_witness :
  ImageFromJSON (Sample.system Fixtures.with_pages) Sample.codec Sample.codec
    (list_byte_of_string "blank") (stringStore.mk "")
  = (Ret (make_slice [], Some "Must provide input"), stringStore.mk "", []).
Proof.
  exact (ImageFromJSON_blank_page (Sample.system Fixtures.with_pages)
           Sample.codec Sample.codec (list_byte_of_string "blank")
           (mkJsonPDFGenerator [mkJsonPage "" ""]) (mkJsonPage "" "") []
           (stringStore.mk "") eq_refl eq_refl eq_refl eq_refl).
Defined.

Lemma ImageFromJSON_html_page_witness :
  ImageFromJSON (Sample.system Fixtures.with_pages) Sample.codec Sample.codec
    (list_byte_of_string "html") (stringStore.mk "/usr/bin/wkhtmltoimage")
  = (Ret (make_slice [x6f; x6b], None),
     stringStore.mk "/usr/bin/wkhtmltoimage",
     [EvGet; EvGet;
      EvRun "/usr/bin/wkhtmltoimage"
        ["-q"; "--disable-plugins"; "--format"; "png"; "-"; "-"]
        (Some "<p>hi</p>")]).
Proof.
  exact (ImageFromJSON_html_page (Sample.system Fixtures.with_pages)
           Sample.codec Sample.codec (list_byte_of_string "html")
           (mkJsonPDFGenerator [mkJsonPage "ignored.html" "PHA+aGk8L3A+"])
           (mkJsonPage "ignored.html" "PHA+aGk8L3A+") []
           (make_slice (list_byte_of_string "<p>hi</p>"))
           (stringStore.mk "/usr/bin/wkhtmltoimage")
           eq_refl eq_refl ltac:(discriminate) eq_refl ltac:(discriminate)
           ltac:(discriminate)).
Defined.

Lemma cleanupOutput_idempotent_witness :
  cleanupOutput Sample.codec Sample.codec
    (make_slice (Sample.header ++ [x2a])) "png"
  = Ret (make_slice (Sample.header ++ [x2a])).
Proof.
  exact (cleanupOutput_idempotent Sample.codec Sample.codec
           (make_slice ([x57; x3a] ++ Sample.header ++ [x2a]))
           (make_slice (Sample.header ++ [x2a])) "png"
           ltac:(discriminate) (fun m => eq_refl) eq_refl).
Defined.
